(** * Entities, CSV and XML codecs of the Open-scenario examples

    A shallow embedding of the three scripts [principes_1_2.py],
    [principles_345.py] and [five_principles.py]: the entity classes, their
    row and element encoders, the CSV and XML handlers and the comparator.

    Conventions of the embedding.
    - A Python object stored in a field is a [value]: [None], an [int] or a
      [str].  A [str] is a [string] whose characters are the code points
      U+0000 to U+00FF; text with code points above U+00FF is outside the
      embedding.
    - A raised exception is a [Raise] result; the handlers catch nothing, so
      an exception raised in a loop body is the result of the whole call.
    - The handlers are embedded in two layers.  The functions of the
      scripts give the records handed to [csv.writer] and the element tree
      handed to [ElementTree.write], and decode the records that
      [csv.reader] yields and the tree that [ET.parse] returns.  What the
      file makes of them in between is the libraries' business and is
      given by [CsvFile.read_back], [XmlFile.pretty_file] and
      [XmlFile.plain_file]: a record or a tree does not come back from a
      file as it went in.  The encoding of the files is taken to hold
      every character written (UTF-8). *)

From Stdlib Require Import String Ascii ZArith NArith List Bool Lia.
From Stdlib Require Import DecimalString DecimalPos DecimalN DecimalZ.
Import ListNotations.
Local Open Scope string_scope.
Local Open Scope list_scope.

(** ** Exceptions and results *)

Inductive exn : Type :=
| StopIteration            (* next() on an exhausted reader *)
| ValueError_unpack        (* a, b, c = row with len(row) <> 3 *)
| ValueError_literal       (* int(s) on an invalid literal *)
| AttributeError_NoneType  (* None.text, None.get *)
| TypeError_serialization  (* ElementTree.write on a text that is no str *)
| ExpatError               (* minidom.parseString on a forbidden character *)
| ParseError.              (* ET.parse on a forbidden character *)

Inductive result (A : Type) : Type :=
| Ok (a : A)
| Raise (e : exn).

Arguments Ok {A} a.
Arguments Raise {A} e.

Definition bind {A B : Type} (r : result A) (k : A -> result B) : result B :=
  match r with
  | Ok a => k a
  | Raise e => Raise e
  end.

Notation "x <- r ;; k" := (bind r (fun x => k))
  (at level 61, r at next level, right associativity).

(** A [for] loop that appends one object per item: the first exception
    ends the loop and the call. *)
Fixpoint for_each {A B : Type} (body : A -> result B) (l : list A)
  : result (list B) :=
  match l with
  | [] => Ok []
  | a :: l' =>
      b <- body a ;;
      bs <- for_each body l' ;;
      Ok (b :: bs)
  end.

Definition succeeds {A : Type} (r : result A) : bool :=
  match r with
  | Ok _ => true
  | Raise _ => false
  end.

(** ** Python values and the builtins the scripts call *)

Module Py.

Inductive value : Type :=
| VNone
| VInt (z : Z)
| VStr (s : string).

(** [a == b] on [None], [int] and [str] objects. *)
Definition eqb (a b : value) : bool :=
  match a, b with
  | VNone, VNone => true
  | VInt x, VInt y => Z.eqb x y
  | VStr s, VStr t => String.eqb s t
  | _, _ => false
  end.

(** [str(n)] for an [int]: the decimal numeral, ["-"] first when negative. *)
Definition str_of_int (z : Z) : string :=
  NilZero.string_of_int (Z.to_int z).

(** [str(v)]. *)
Definition str (v : value) : string :=
  match v with
  | VNone => "None"
  | VInt z => str_of_int z
  | VStr s => s
  end.

Definition code (c : ascii) : N := N_of_ascii c.

Definition between (lo hi : N) (c : ascii) : bool :=
  (lo <=? code c)%N && (code c <=? hi)%N.

(** Decimal digits (category Nd) below U+0100: ['0'] to ['9']. *)
Definition is_decimal (c : ascii) : bool := between 48 57 c.

(** Characters with the Unicode property Digit below U+0100: the decimal
    digits and the superscripts U+00B2, U+00B3 and U+00B9. *)
Definition is_digit (c : ascii) : bool :=
  is_decimal c || (code c =? 178)%N || (code c =? 179)%N || (code c =? 185)%N.

Fixpoint all_chars (p : ascii -> bool) (s : string) : bool :=
  match s with
  | EmptyString => true
  | String c s' => p c && all_chars p s'
  end.

(** [s.isdigit()]: at least one character, and all of them digits. *)
Definition isdigit (s : string) : bool :=
  match s with
  | EmptyString => false
  | String _ _ => all_chars is_digit s
  end.

(** Blanks that [int()] skips around a literal: the ASCII blanks, U+0085
    and U+00A0. *)
Definition is_blank (c : ascii) : bool :=
  between 9 13 c || (code c =? 32)%N || (code c =? 133)%N || (code c =? 160)%N.

Fixpoint skip_blanks (s : string) : string :=
  match s with
  | EmptyString => EmptyString
  | String c s' => if is_blank c then skip_blanks s' else s
  end.

Definition digit_value (c : ascii) : Z := Z.of_N (code c) - 48.

Definition underscore : ascii := "_"%char.

(** The digits of a base 10 literal, single underscores allowed between
    them.  [prev] is the character before [s]; the result is the value read
    so far, the number of digits, and the unread rest. *)
Fixpoint scan_digits (s : string) (prev : ascii) (acc : Z) (digits : nat)
  : result (Z * nat * string) :=
  match s with
  | EmptyString =>
      if Ascii.eqb prev underscore then Raise ValueError_literal
      else Ok (acc, digits, EmptyString)
  | String c s' =>
      if is_decimal c then
        scan_digits s' c (10 * acc + digit_value c)%Z (S digits)
      else if Ascii.eqb c underscore then
        if Ascii.eqb prev underscore then Raise ValueError_literal
        else scan_digits s' c acc digits
      else if Ascii.eqb prev underscore then Raise ValueError_literal
      else Ok (acc, digits, s)
  end.

Definition read_sign (s : string) : Z * string :=
  match s with
  | String "+"%char s' => (1%Z, s')
  | String "-"%char s' => ((-1)%Z, s')
  | _ => (1%Z, s)
  end.

Definition starts_with_underscore (s : string) : bool :=
  match s with
  | String c _ => Ascii.eqb c underscore
  | EmptyString => false
  end.

(** [int(s)] for a [str]: blanks, an optional sign, digits, blanks.  The
    interpreter's optional limit on the length of a literal
    ([sys.set_int_max_str_digits]) is a setting of the run, not of the
    scripts, and is left out, here and in [str_of_int]. *)
Definition int (s : string) : result Z :=
  let '(sign, body) := read_sign (skip_blanks s) in
  if starts_with_underscore body then Raise ValueError_literal
  else
    r <- scan_digits body zero 0%Z 0%nat ;;
    let '(n, digits, rest) := r in
    match digits, skip_blanks rest with
    | S _, EmptyString => Ok (sign * n)%Z
    | _, _ => Raise ValueError_literal
    end.

End Py.

Import Py.

(** ** Element trees ([xml.etree.ElementTree]) *)

Module ET.

#[local] Set Warnings "-register-all".

(** An element: its tag, its attribute dictionary, its [text] (any object
    may be assigned to it; [None] when there is none) and its children in
    document order. *)
Inductive Element : Type :=
| Elem (tag : string) (attrib : list (string * value)) (text : value)
       (children : list Element).

Definition tag (e : Element) : string :=
  match e with Elem t _ _ _ => t end.

Definition attrib (e : Element) : list (string * value) :=
  match e with Elem _ a _ _ => a end.

Definition text (e : Element) : value :=
  match e with Elem _ _ x _ => x end.

Definition children (e : Element) : list Element :=
  match e with Elem _ _ _ c => c end.

(** [ET.Element(tag, **attrib)]: no text, no children. *)
Definition Element_ (t : string) (a : list (string * value)) : Element :=
  Elem t a VNone [].

(** [parent.append(child)], also the effect of [ET.SubElement] on the
    parent. *)
Definition append (parent child : Element) : Element :=
  match parent with
  | Elem t a x c => Elem t a x (c ++ [child])
  end.

(** [elem.text = v]. *)
Definition set_text (e : Element) (v : value) : Element :=
  match e with
  | Elem t a _ c => Elem t a v c
  end.

(** [elem.set(key, v)]: dictionary update. *)
Fixpoint dict_set (a : list (string * value)) (key : string) (v : value)
  : list (string * value) :=
  match a with
  | [] => [(key, v)]
  | (k, w) :: a' =>
      if String.eqb k key then (k, v) :: a' else (k, w) :: dict_set a' key v
  end.

Definition set (e : Element) (key : string) (v : value) : Element :=
  match e with
  | Elem t a x c => Elem t (dict_set a key v) x c
  end.

Fixpoint dict_get (a : list (string * value)) (key : string) : value :=
  match a with
  | [] => VNone
  | (k, w) :: a' => if String.eqb k key then w else dict_get a' key
  end.

(** [elem.get(key)]: the attribute, or [None]. *)
Definition get (e : Element) (key : string) : value :=
  dict_get (attrib e) key.

Definition has_tag (t : string) (e : Element) : bool :=
  String.eqb (tag e) t.

(** [elem.find(t)] for a plain tag [t]: the first child with that tag. *)
Definition find (e : Element) (t : string) : option Element :=
  List.find (has_tag t) (children e).

(** [elem.iter()]: the element and its descendants, in document order. *)
Fixpoint iter (e : Element) : list Element :=
  match e with
  | Elem _ _ _ cs => e :: flat_map iter cs
  end.

(** The proper descendants of an element, in document order. *)
Definition descendants (e : Element) : list Element :=
  flat_map iter (children e).

(** [elem.findall('.//' + t)]: every proper descendant with tag [t]. *)
Definition findall_desc (e : Element) (t : string) : list Element :=
  filter (has_tag t) (descendants e).

(** [elem.find('.//' + t)]: the first of them. *)
Definition find_desc (e : Element) (t : string) : option Element :=
  List.find (has_tag t) (descendants e).

(** [x.text] where [x] is the result of a [find]. *)
Definition text_of (x : option Element) : result value :=
  match x with
  | Some e => Ok (text e)
  | None => Raise AttributeError_NoneType
  end.

(** [x.get(key)] where [x] is the result of a [find]. *)
Definition get_of (x : option Element) (key : string) : result value :=
  match x with
  | Some e => Ok (get e key)
  | None => Raise AttributeError_NoneType
  end.

End ET.

Import ET.

(** ** CSV records ([csv.writer], [csv.reader]) *)

Module Csv.

(** What [writer.writerow] writes for one field: [None] as the empty
    string, a [str] as it is, anything else through [str()]. *)
Definition field (v : value) : string :=
  match v with
  | VNone => ""
  | VStr s => s
  | VInt _ => Py.str v
  end.

(** [writer.writerow(row)]: the record added to the file. *)
Definition writerow (row : list value) : list string := map field row.

End Csv.

(** ** The entity classes

    [Entity] is the base class of the three scripts; the subclasses are
    [Vehicle] and [Pedestrian] ([principes_1_2.py], [principles_345.py])
    and [LightStateAction] ([five_principles.py]).  An object is its class
    and the values of its attributes. *)

Inductive Entity : Type :=
| Vehicle (entity_id name model : value)
| Pedestrian (entity_id name age : value)
| LightStateAction (entity_id name user_defined_light_type : value).

Definition entity_id (e : Entity) : value :=
  match e with
  | Vehicle i _ _ | Pedestrian i _ _ | LightStateAction i _ _ => i
  end.

Definition name (e : Entity) : value :=
  match e with
  | Vehicle _ n _ | Pedestrian _ n _ | LightStateAction _ n _ => n
  end.

(** The one attribute a subclass adds: [model], [age] or
    [user_defined_light_type]. *)
Definition own_field (e : Entity) : value :=
  match e with
  | Vehicle _ _ m => m
  | Pedestrian _ _ a => a
  | LightStateAction _ _ t => t
  end.

(** [Entity.to_csv_row]. *)
Definition Entity_to_csv_row (e : Entity) : list value :=
  [entity_id e; name e].

(** [to_csv_row] of the subclasses: [super().to_csv_row() + [field]]. *)
Definition to_csv_row (e : Entity) : list value :=
  match e with
  | Vehicle _ _ model => Entity_to_csv_row e ++ [model]
  | Pedestrian _ _ age => Entity_to_csv_row e ++ [age]
  | LightStateAction _ _ user_defined_light_type =>
      Entity_to_csv_row e ++ [user_defined_light_type]
  end.

(** [Entity.to_xml_element]. *)
Definition Entity_to_xml_element (e : Entity) : Element :=
  let entity_element := Element_ "Entity" [("id", VStr (Py.str (entity_id e)))] in
  let name_element := set_text (Element_ "Name" []) (name e) in
  append entity_element name_element.

(** [to_xml_element] of the subclasses. *)
Definition to_xml_element (e : Entity) : Element :=
  let entity_element := Entity_to_xml_element e in
  match e with
  | Vehicle _ _ model =>
      let model_element := set_text (Element_ "Model" []) model in
      append entity_element model_element
  | Pedestrian _ _ age =>
      let age_element := set_text (Element_ "Age" []) (VStr (Py.str age)) in
      append entity_element age_element
  | LightStateAction _ _ user_defined_light_type =>
      let user_defined_light_element :=
        set (Element_ "UserDefinedLight" [])
            "userDefinedLightType" user_defined_light_type in
      let light_type_element :=
        append (Element_ "LightType" []) user_defined_light_element in
      let light_state_action_element :=
        append (Element_ "LightStateAction" []) light_type_element in
      append entity_element light_state_action_element
  end.

(** ** [principes_1_2.py] *)

Module Principes12.

Definition csv_header : list string := ["Entity ID"; "Name"; "Model/Age"].

(** [CSVHandler.save_entities_to_csv]: the records handed to the writer,
    header first.  What a reader gets from the file is
    [CsvFile.read_back] of them. *)
Definition save_entities_to_csv (entities : list Entity) : list (list string) :=
  Csv.writerow (map VStr csv_header)
  :: map (fun entity => Csv.writerow (to_csv_row entity)) entities.

(** The body of the loop of [read_entities_from_csv]. *)
Definition decode_row (row : list string) : result Entity :=
  match row with
  | [entity_id; name; attribute] =>
      if Py.isdigit attribute then
        age <- Py.int attribute ;;
        Ok (Pedestrian (VStr entity_id) (VStr name) (VInt age))
      else
        Ok (Vehicle (VStr entity_id) (VStr name) (VStr attribute))
  | _ => Raise ValueError_unpack
  end.

(** [CSVHandler.read_entities_from_csv], on the records that
    [csv.reader] yields. *)
Definition read_entities_from_csv (file : list (list string))
  : result (list Entity) :=
  match file with
  | [] => Raise StopIteration
  | _ :: rows => for_each decode_row rows
  end.

(** The body of the loop of [create_sample_xml]: the [Entity] element
    added to the root. *)
Definition encode_entity (entity : Entity) : Element :=
  let entity_element := Element_ "Entity" [("id", VStr (Py.str (entity_id entity)))] in
  let name_element := set_text (Element_ "Name" []) (name entity) in
  let entity_element := append entity_element name_element in
  match entity with
  | Vehicle _ _ model =>
      let model_element := set_text (Element_ "Model" []) model in
      append entity_element model_element
  | Pedestrian _ _ age =>
      let age_element := set_text (Element_ "Age" []) (VStr (Py.str age)) in
      append entity_element age_element
  | LightStateAction _ _ _ => entity_element
  end.

(** [XMLHandler.create_sample_xml]: the tree built, which is handed to
    [tree.write] and to [minidom].  What the file holds afterwards is
    [XmlFile.pretty_file] of it. *)
Definition create_sample_xml (entities : list Entity) : Element :=
  fold_left (fun root entity => append root (encode_entity entity))
            entities (Element_ "Entities" []).

(** The body of the loop of [parse_entities_from_xml]. *)
Definition decode_entity (entity : Element) : result Entity :=
  let entity_id := get entity "id" in
  name <- text_of (find entity "Name") ;;
  let model := find entity "Model" in
  match model with
  | Some model => Ok (Vehicle entity_id name (text model))
  | None =>
      age <- text_of (find entity "Age") ;;
      Ok (Pedestrian entity_id name age)
  end.

(** [XMLHandler.parse_entities_from_xml], on the root that [ET.parse]
    returns. *)
Definition parse_entities_from_xml (root : Element) : result (list Entity) :=
  for_each decode_entity (findall_desc root "Entity").

Definition match_line (csv_entity : Entity) : string :=
  "Match found: " ++ Py.str (name csv_entity)
  ++ " with ID " ++ Py.str (entity_id csv_entity).

Definition same_id_and_name (csv_entity xml_entity : Entity) : bool :=
  Py.eqb (entity_id csv_entity) (entity_id xml_entity)
  && Py.eqb (name csv_entity) (name xml_entity).

(** [EntityComparator.compare_entities]: the lines printed, in order. *)
Definition compare_entities (csv_entities xml_entities : list Entity)
  : list string :=
  flat_map (fun csv_entity =>
    flat_map (fun xml_entity =>
      if same_id_and_name csv_entity xml_entity
      then [match_line csv_entity] else [])
      xml_entities)
    csv_entities.

End Principes12.

(** ** [principles_345.py] *)

Module Principles345.

(** [CSVHandler.save]: the file holds the header and this entity's row. *)
Definition CSVHandler_save (entity : Entity) : list (list string) :=
  [Csv.writerow (map VStr ["Entity ID"; "Name"; "Model/Age"]);
   Csv.writerow (to_csv_row entity)].

(** [XMLHandler.save]: the tree handed to [tree.write].  What a parser
    gets from the file is [XmlFile.plain_file] of it. *)
Definition XMLHandler_save (entity : Entity) : Element :=
  append (Element_ "Entities" []) (to_xml_element entity).

End Principles345.

(** ** [five_principles.py] *)

Module FivePrinciples.

Definition CSVHandler_save (entity : Entity) : list (list string) :=
  [Csv.writerow (map VStr ["Entity ID"; "Name"; "UserDefinedLightType"]);
   Csv.writerow (to_csv_row entity)].

Definition XMLHandler_save (entity : Entity) : Element :=
  append (Element_ "Entities" []) (to_xml_element entity).

(** The body of the loop of [parse_xml]. *)
Definition decode_action (action : Element) : result Entity :=
  let entity_id := VInt 1 in
  let name := VStr "LightStateAction" in
  light_type <- get_of (find_desc action "UserDefinedLight")
                       "userDefinedLightType" ;;
  Ok (LightStateAction entity_id name light_type).

(** [parse_xml], on the root of the tree read. *)
Definition parse_xml (root : Element) : result (list Entity) :=
  for_each decode_action (findall_desc root "PrivateAction").

End FivePrinciples.

(** ** What a file gives back

    The scripts write with [open(path, 'w', newline='')] and read with
    [open(path, 'r')], write trees with [ElementTree.write] (and, in
    [create_sample_xml], once more through [minidom]'s [toprettyxml]) and
    read them with [ET.parse]. *)

Module TextIO.

Definition tab : ascii := "009"%char.
Definition lf : ascii := "010"%char.
Definition cr : ascii := "013"%char.
Definition space : ascii := " "%char.

(** Reading text with universal newlines, and the line ends of an XML
    parser: ["\r\n"] and a lone ["\r"] are read as ["\n"]. *)
Fixpoint universal_newlines (s : string) : string :=
  match s with
  | EmptyString => EmptyString
  | String c s' =>
      if Ascii.eqb c cr then
        match s' with
        | EmptyString => String lf EmptyString
        | String c' s'' =>
            if Ascii.eqb c' lf then String lf (universal_newlines s'')
            else String lf (universal_newlines s')
        end
      else String c (universal_newlines s')
  end.

Fixpoint map_chars (f : ascii -> ascii) (s : string) : string :=
  match s with
  | EmptyString => EmptyString
  | String c s' => String (f c) (map_chars f s')
  end.

End TextIO.

Module CsvFile.

Import TextIO.

(** The records that [csv.reader] yields from a file opened with
    [mode='r'], when the file was written by [csv.writer] with
    [newline='']: the writer quotes what needs quoting and the reader
    undoes it, but the file object translates the line ends inside the
    fields on the way in. *)
Definition read_back (records : list (list string)) : list (list string) :=
  map (map universal_newlines) records.

End CsvFile.

Module XmlFile.

Import TextIO.

(** The trees concerned are those the scripts build: tags and attribute
    names are XML names and no attribute is given twice. *)

(** [if text:] in the serializer: no text is written for a falsy one. *)
Definition falsy (v : value) : bool :=
  match v with
  | VNone => true
  | VInt z => Z.eqb z 0
  | VStr EmptyString => true
  | VStr (String _ _) => false
  end.

Definition is_str (v : value) : bool :=
  match v with
  | VStr _ => true
  | _ => false
  end.

(** [ElementTree.write] accepts the tree: every attribute value is a
    [str] and every text is falsy or a [str]. *)
Fixpoint writable (e : Element) : bool :=
  match e with
  | Elem _ attrs text cs =>
      forallb (fun kv => is_str (snd kv)) attrs
      && (falsy text || is_str text)
      && forallb writable cs
  end.

(** The characters XML allows below U+0100: no control character but tab,
    line feed and carriage return. *)
Definition xml_char (c : ascii) : bool :=
  (32 <=? code c)%N || Ascii.eqb c tab || Ascii.eqb c lf || Ascii.eqb c cr.

Definition chars_allowed (v : value) : bool :=
  match v with
  | VStr s => all_chars xml_char s
  | _ => true
  end.

(** The parser accepts what was written for the tree. *)
Fixpoint well_formed (e : Element) : bool :=
  match e with
  | Elem _ attrs text cs =>
      forallb (fun kv => chars_allowed (snd kv)) attrs
      && chars_allowed text
      && forallb well_formed cs
  end.

(** The text read back for an element without children: none when
    nothing was written, line ends as the parser reads them. *)
Definition leaf_text (v : value) : value :=
  if falsy v then VNone
  else match v with
       | VStr s => VStr (universal_newlines s)
       | _ => v
       end.

(** [toprettyxml(indent="   ")]: three spaces per level. *)
Fixpoint indent (depth : nat) : string :=
  match depth with
  | O => EmptyString
  | S d => "   " ++ indent d
  end.

(** The text read back for an element with children, which
    [toprettyxml] lays out one node per line: [depth] is the level of the
    children. *)
Definition branch_text (depth : nat) (v : value) : value :=
  let pad := String lf (indent depth) in
  if falsy v then VStr pad
  else match v with
       | VStr s => VStr (pad ++ universal_newlines s ++ pad)
       | _ => v
       end.

(** An attribute value that [minidom] wrote as it is: the parser reads
    its line ends and then every line feed and tab as a space. *)
Definition blank_whitespace (c : ascii) : ascii :=
  if Ascii.eqb c lf || Ascii.eqb c tab then space else c.

Definition attribute_text (s : string) : string :=
  map_chars blank_whitespace (universal_newlines s).

Definition attribute_read (v : value) : value :=
  match v with
  | VStr s => VStr (attribute_text s)
  | _ => v
  end.

(** The tree [ET.parse] returns from the pretty-printed file. *)
Fixpoint pretty_parsed (depth : nat) (e : Element) : Element :=
  match e with
  | Elem t attrs text cs =>
      Elem t
           (map (fun kv => (fst kv, attribute_read (snd kv))) attrs)
           (match cs with
            | [] => leaf_text text
            | _ :: _ => branch_text (S depth) text
            end)
           (map (pretty_parsed (S depth)) cs)
  end.

(** What [create_sample_xml] leaves in its file, as the tree [ET.parse]
    returns from it: [tree.write] raises on a text that is no [str],
    [minidom.parseString] raises on a forbidden character, and the file
    written last is the pretty-printed one. *)
Definition pretty_file (root : Element) : result Element :=
  if negb (writable root) then Raise TypeError_serialization
  else if negb (well_formed root) then Raise ExpatError
  else Ok (pretty_parsed 0 root).

(** The tree [ET.parse] returns from a file written by [tree.write]
    alone: attribute values are written with their whitespace escaped and
    come back as they were. *)
Fixpoint plain_parsed (e : Element) : Element :=
  match e with
  | Elem t attrs text cs => Elem t attrs (leaf_text text) (map plain_parsed cs)
  end.

(** [XMLHandler.save] then [ET.parse]: the write raises on a text that is
    no [str], the parse on a forbidden character. *)
Definition plain_file (root : Element) : result Element :=
  if negb (writable root) then Raise TypeError_serialization
  else if negb (well_formed root) then Raise ParseError
  else Ok (plain_parsed root).

End XmlFile.

(** ** The pipelines of [principes_1_2.py] *)

Module Pipeline.

Import Principes12.

(** [save_entities_to_csv] on a path, then [read_entities_from_csv] on
    the same path. *)
Definition csv_saved_then_read (entities : list Entity)
  : result (list Entity) :=
  read_entities_from_csv (CsvFile.read_back (save_entities_to_csv entities)).

(** [create_sample_xml] on a path, then [parse_entities_from_xml] on the
    same path. *)
Definition xml_created_then_parsed (entities : list Entity)
  : result (list Entity) :=
  root <- XmlFile.pretty_file (create_sample_xml entities) ;;
  parse_entities_from_xml root.

(** The script: save to both files, read both back, compare. *)
Definition script (entities : list Entity) : result (list string) :=
  let csv_file := CsvFile.read_back (save_entities_to_csv entities) in
  xml_file <- XmlFile.pretty_file (create_sample_xml entities) ;;
  csv_entities <- read_entities_from_csv csv_file ;;
  xml_entities <- parse_entities_from_xml xml_file ;;
  Ok (compare_entities csv_entities xml_entities).

End Pipeline.

(** ** Vocabulary of the statements *)

(** A numeral: one or more characters, all of them ['0'] to ['9']. *)
Definition is_numeral (s : string) : bool :=
  match s with
  | EmptyString => false
  | String _ _ => all_chars is_decimal s
  end.

(** The number a numeral denotes, digit by digit with its weight. *)
Fixpoint numeral_value (s : string) : Z :=
  match s with
  | EmptyString => 0
  | String c s' =>
      (digit_value c * 10 ^ Z.of_nat (String.length s') + numeral_value s')%Z
  end.


(** An entity that the CSV file gives back as it was: a vehicle with text
    fields whose model [isdigit()] rejects, or a pedestrian with text
    identifier and name and an age that is an [int], not negative. *)
Definition csv_faithful (e : Entity) : bool :=
  match e with
  | Vehicle (VStr _) (VStr _) (VStr model) => negb (isdigit model)
  | Pedestrian (VStr _) (VStr _) (VInt age) => (0 <=? age)%Z
  | _ => false
  end.

(** The text made of U+00B2, the superscript two. *)
Definition superscript_two : string := String "178"%char EmptyString.

(** The digits of a [Decimal.uint], read from the left into [acc]. *)
Fixpoint uint_value (d : Decimal.uint) (acc : Z) : Z :=
  match d with
  | Decimal.Nil => acc
  | Decimal.D0 d' => uint_value d' (10 * acc + 0)
  | Decimal.D1 d' => uint_value d' (10 * acc + 1)
  | Decimal.D2 d' => uint_value d' (10 * acc + 2)
  | Decimal.D3 d' => uint_value d' (10 * acc + 3)
  | Decimal.D4 d' => uint_value d' (10 * acc + 4)
  | Decimal.D5 d' => uint_value d' (10 * acc + 5)
  | Decimal.D6 d' => uint_value d' (10 * acc + 6)
  | Decimal.D7 d' => uint_value d' (10 * acc + 7)
  | Decimal.D8 d' => uint_value d' (10 * acc + 8)
  | Decimal.D9 d' => uint_value d' (10 * acc + 9)
  end%Z.

(** ** Text that a file gives back as written *)

Import TextIO.

(** No carriage return: what the CSV file keeps. *)
Definition no_cr (s : string) : bool :=
  all_chars (fun c => negb (Ascii.eqb c cr)) s.

(** The text fields of an entity hold no carriage return. *)
Definition csv_kept (e : Entity) : bool :=
  match e with
  | Vehicle (VStr i) (VStr n) (VStr m) => no_cr i && no_cr n && no_cr m
  | Pedestrian (VStr i) (VStr n) _ => no_cr i && no_cr n
  | _ => false
  end.

(** No control character at all: what an XML attribute keeps. *)
Definition plain_text (s : string) : bool :=
  all_chars (fun c => (32 <=? code c)%N) s.

(** Not empty, and no control character but tab and line feed: what the
    text of an XML element keeps. *)
Definition element_text_kept (s : string) : bool :=
  match s with
  | EmptyString => false
  | String _ _ =>
      all_chars (fun c => (32 <=? code c)%N || Ascii.eqb c tab
                          || Ascii.eqb c lf) s
  end.

(** A vehicle or a pedestrian whose fields are all text that the XML file
    keeps: the identifier as an attribute, the others as element text. *)
Definition xml_kept (e : Entity) : bool :=
  match e with
  | Vehicle (VStr i) (VStr n) (VStr m) =>
      plain_text i && element_text_kept n && element_text_kept m
  | Pedestrian (VStr i) (VStr n) (VStr a) =>
      plain_text i && element_text_kept n && element_text_kept a
  | _ => false
  end.

(** [create_sample_xml] can write the entity: its name, and the model of a
    vehicle, is falsy or a [str]. *)
Definition xml_writable (e : Entity) : bool :=
  let accepted v := XmlFile.falsy v || XmlFile.is_str v in
  match e with
  | Vehicle _ n m => accepted n && accepted m
  | Pedestrian _ n _ => accepted n
  | LightStateAction _ n _ => accepted n
  end.

(** What is written for the entity holds no forbidden character. *)
Definition xml_well_formed (e : Entity) : bool :=
  XmlFile.chars_allowed (VStr (Py.str (entity_id e)))
  && XmlFile.chars_allowed (name e)
  && match e with
     | Vehicle _ _ m => XmlFile.chars_allowed m
     | Pedestrian _ _ a => XmlFile.chars_allowed (VStr (Py.str a))
     | LightStateAction _ _ _ => true
     end.

(** What [parse_entities_from_xml] makes of the element written for an
    entity by [create_sample_xml]: the identifier is the text of [str()]
    with its whitespace blanked, name and model are the text the parser
    reads, the age is the text of [str()], and the element of a
    LightStateAction, which has neither [Model] nor [Age], is refused. *)
Definition xml_read_back (e : Entity) : result Entity :=
  match e with
  | Vehicle i n m =>
      Ok (Vehicle (VStr (XmlFile.attribute_text (Py.str i)))
                  (XmlFile.leaf_text n) (XmlFile.leaf_text m))
  | Pedestrian i n a =>
      Ok (Pedestrian (VStr (XmlFile.attribute_text (Py.str i)))
                     (XmlFile.leaf_text n)
                     (XmlFile.leaf_text (VStr (Py.str a))))
  | LightStateAction _ _ _ => Raise AttributeError_NoneType
  end.

(** ** Vocabulary of the further properties *)

(** [elem.find(t) is not None]. *)
Definition has_child (e : Element) (t : string) : bool :=
  match find e t with
  | Some _ => true
  | None => false
  end.

(** [elem.find('.//' + t) is not None]. *)
Definition has_descendant (e : Element) (t : string) : bool :=
  match find_desc e t with
  | Some _ => true
  | None => false
  end.

(** A CSV record with three fields, the third either refused by
    [isdigit()] or a numeral. *)
Definition row_ok (row : list string) : bool :=
  match row with
  | [_; _; attribute] => negb (isdigit attribute) || is_numeral attribute
  | _ => false
  end.

(** An [Entity] element with a [Name] child and a [Model] or [Age] child. *)
Definition element_ok (e : Element) : bool :=
  has_child e "Name" && (has_child e "Model" || has_child e "Age").

Definition is_light_state_action (e : Entity) : bool :=
  match e with
  | LightStateAction _ _ _ => true
  | _ => false
  end.

(** What the CSV reader makes of the row written for an entity, when it
    makes anything of it: every column comes back with its line ends
    translated, and the class is chosen by the text of the third column
    alone. *)
Definition csv_read_back (e : Entity) : Entity :=
  let attribute := universal_newlines (Csv.field (own_field e)) in
  let entity_id := universal_newlines (Csv.field (entity_id e)) in
  let name := universal_newlines (Csv.field (name e)) in
  if is_numeral attribute then
    Pedestrian (VStr entity_id) (VStr name) (VInt (numeral_value attribute))
  else
    Vehicle (VStr entity_id) (VStr name) (VStr attribute).

(** An entity of the kind the script of [principes_1_2.py] saves: a
    vehicle whose model is text without control characters that the CSV
    reader can decode, or a pedestrian whose age is an [int]; the
    identifier is an [int] or text without control characters, the name is
    text, not empty and without control characters. *)
Definition script_ready (e : Entity) : bool :=
  let id_ready i :=
    match i with
    | VInt _ => true
    | VStr s => plain_text s
    | VNone => false
    end in
  let name_ready n :=
    match n with
    | VStr (String c s) => plain_text (String c s)
    | _ => false
    end in
  match e with
  | Vehicle i n (VStr m) =>
      id_ready i && name_ready n && plain_text m
      && (negb (isdigit m) || is_numeral m)
  | Pedestrian i n (VInt _) => id_ready i && name_ready n
  | _ => false
  end.


(** The pair the comparator compares. *)
Definition key (e : Entity) : value * value := (entity_id e, name e).

(** Case analysis on the 256 characters. *)
Ltac by_cases_on_char c :=
  destruct c as [[] [] [] [] [] [] [] []]; vm_compute; intros;
  try reflexivity; try discriminate; try tauto.

(** * Properties *)

(** ** The result monad *)

Lemma for_each_map {A B C : Type} (f : A -> B) (body : B -> result C) l :
  for_each body (map f l) = for_each (fun a => body (f a)) l.
Proof.
  induction l as [|a l IH]; simpl; [reflexivity|].
  now rewrite IH.
Qed.

Lemma for_each_ok {A B : Type} (body : A -> result B) (f : A -> B) l :
  (forall a, In a l -> body a = Ok (f a)) ->
  for_each body l = Ok (map f l).
Proof.
  induction l as [|a l IH]; intros H; simpl; [reflexivity|].
  rewrite (H a (or_introl eq_refl)); simpl.
  rewrite IH by (intros b Hb; apply H; now right).
  reflexivity.
Qed.

Lemma for_each_raises {A B : Type} (body : A -> result B) l a :
  In a l -> succeeds (body a) = false -> succeeds (for_each body l) = false.
Proof.
  induction l as [|b l IH]; simpl; [tauto|].
  intros [->|Hin] Ha.
  - destruct (body a); [discriminate|reflexivity].
  - destruct (body b); simpl; [|reflexivity].
    specialize (IH Hin Ha).
    destruct (for_each body l); [discriminate|reflexivity].
Qed.

Lemma for_each_inv {A B : Type} (body : A -> result B) l bs :
  for_each body l = Ok bs ->
  Forall2 (fun a b => body a = Ok b) l bs.
Proof.
  revert bs; induction l as [|a l IH]; simpl; intros bs H.
  - injection H as <-. constructor.
  - destruct (body a) as [b|] eqn:Hb; simpl in H; [|discriminate].
    destruct (for_each body l) as [bs'|]; simpl in H; [|discriminate].
    injection H as <-. constructor; auto.
Qed.

(** ** Characters *)

Lemma digit_not_blank c : is_digit c = true -> is_blank c = false.
Proof. by_cases_on_char c. Qed.

Lemma digit_not_underscore c :
  is_digit c = true -> Ascii.eqb c underscore = false.
Proof. by_cases_on_char c. Qed.

Lemma decimal_is_digit c : is_decimal c = true -> is_digit c = true.
Proof. unfold is_digit. now intros ->. Qed.

Lemma all_chars_weaken (p q : ascii -> bool) s :
  (forall c, p c = true -> q c = true) ->
  all_chars p s = true -> all_chars q s = true.
Proof.
  intros Hpq. induction s as [|c s IH]; simpl; [reflexivity|].
  intros [Hc Hs]%andb_true_iff. rewrite (Hpq c Hc). now apply IH.
Qed.

Lemma numeral_isdigit s : is_numeral s = true -> isdigit s = true.
Proof.
  destruct s as [|c s]; [discriminate|].
  unfold is_numeral, isdigit. apply all_chars_weaken, decimal_is_digit.
Qed.

(** ** [int()] on what [isdigit()] accepts *)

Lemma skip_blanks_digit c s :
  is_digit c = true -> skip_blanks (String c s) = String c s.
Proof. intros H. simpl. now rewrite (digit_not_blank c H). Qed.

Lemma read_sign_digit c s :
  is_digit c = true -> read_sign (String c s) = (1%Z, String c s).
Proof. by_cases_on_char c. Qed.

Lemma scan_digits_numeral s : forall prev acc n,
  all_chars is_decimal s = true ->
  Ascii.eqb prev underscore = false ->
  scan_digits s prev acc n
  = Ok ((acc * 10 ^ Z.of_nat (String.length s) + numeral_value s)%Z,
        (n + String.length s)%nat, EmptyString).
Proof.
  induction s as [|c s IH]; intros prev acc n Hs Hprev.
  - simpl. rewrite Hprev. do 3 f_equal; lia.
  - cbn [all_chars] in Hs. apply andb_true_iff in Hs as [Hc Hs].
    cbn [scan_digits]. rewrite Hc.
    rewrite IH by auto using digit_not_underscore, decimal_is_digit.
    cbn [String.length numeral_value].
    rewrite Nat2Z.inj_succ, Z.pow_succ_r by lia.
    do 3 f_equal; lia.
Qed.

Lemma scan_digits_stops s : forall prev acc n,
  all_chars is_digit s = true ->
  all_chars is_decimal s = false ->
  Ascii.eqb prev underscore = false ->
  exists acc' n' c r,
    scan_digits s prev acc n = Ok (acc', n', String c r)
    /\ is_digit c = true /\ is_decimal c = false.
Proof.
  induction s as [|c s IH]; intros prev acc n Hd Hn Hprev; [discriminate|].
  cbn [all_chars] in Hd, Hn. apply andb_true_iff in Hd as [Hc Hs].
  cbn [scan_digits]. destruct (is_decimal c) eqn:Hdec.
  - apply IH; auto using digit_not_underscore.
  - rewrite (digit_not_underscore c Hc), Hprev.
    now exists acc, n, c, s.
Qed.

(** On a numeral, [int] returns the number it denotes. *)
Lemma int_numeral s : is_numeral s = true -> Py.int s = Ok (numeral_value s).
Proof.
  destruct s as [|c s]; [discriminate|]. unfold is_numeral. intros Hs.
  assert (Hc : is_digit c = true).
  { cbn [all_chars] in Hs. apply andb_true_iff in Hs as [Hc _].
    now apply decimal_is_digit. }
  unfold Py.int. rewrite skip_blanks_digit, read_sign_digit by assumption.
  cbn [starts_with_underscore]. rewrite (digit_not_underscore c Hc).
  rewrite scan_digits_numeral by (assumption || reflexivity).
  cbn [bind String.length Nat.add skip_blanks]. f_equal.
  destruct (numeral_value (String c s)); reflexivity.
Qed.

(** [isdigit] also accepts the superscript digits, which [int] refuses. *)
Lemma int_refuses_superscripts s :
  isdigit s = true -> is_numeral s = false ->
  Py.int s = Raise ValueError_literal.
Proof.
  destruct s as [|c s]; [discriminate|]. unfold isdigit, is_numeral.
  intros Hd Hn.
  assert (Hc : is_digit c = true).
  { cbn [all_chars] in Hd. now apply andb_true_iff in Hd as [Hc _]. }
  unfold Py.int. rewrite skip_blanks_digit, read_sign_digit by assumption.
  cbn [starts_with_underscore]. rewrite (digit_not_underscore c Hc).
  destruct (scan_digits_stops (String c s) zero 0%Z 0%nat Hd Hn eq_refl)
    as (acc' & n' & c' & r & -> & Hc' & _).
  cbn [bind]. rewrite skip_blanks_digit by assumption.
  destruct n'; reflexivity.
Qed.

(** ** [str()] of an [int] *)

Lemma uint_value_weights d : forall acc,
  uint_value d acc
  = (acc * 10 ^ Z.of_nat (String.length (NilEmpty.string_of_uint d))
     + numeral_value (NilEmpty.string_of_uint d))%Z.
Proof.
  induction d; intros acc;
    cbn [uint_value NilEmpty.string_of_uint String.length numeral_value];
    try (rewrite IHd, Nat2Z.inj_succ, Z.pow_succ_r by lia;
         change (digit_value _) with 0%Z + change (digit_value _) with 1%Z
         + change (digit_value _) with 2%Z + change (digit_value _) with 3%Z
         + change (digit_value _) with 4%Z + change (digit_value _) with 5%Z
         + change (digit_value _) with 6%Z + change (digit_value _) with 7%Z
         + change (digit_value _) with 8%Z + change (digit_value _) with 9%Z);
    lia.
Qed.

Lemma uint_value_acc d : forall p,
  uint_value d (Zpos p) = Zpos (Pos.of_uint_acc d p).
Proof.
  induction d; intros p; cbn [uint_value Pos.of_uint_acc];
    try reflexivity; rewrite <- IHd; f_equal; lia.
Qed.

Lemma uint_value_of_uint d : uint_value d 0 = Z.of_N (Pos.of_uint d).
Proof.
  induction d; cbn [uint_value Pos.of_uint]; try reflexivity;
    try assumption; apply uint_value_acc.
Qed.

Lemma string_of_uint_decimal d :
  all_chars is_decimal (NilEmpty.string_of_uint d) = true.
Proof. induction d; simpl; auto. Qed.

Lemma str_of_int_pos p :
  str_of_int (Zpos p) = NilEmpty.string_of_uint (Pos.to_uint p).
Proof.
  unfold str_of_int. cbn [Z.to_int NilZero.string_of_int].
  pose proof (DecimalPos.Unsigned.to_uint_nonnil p) as H.
  unfold NilZero.string_of_uint. now destruct (Pos.to_uint p).
Qed.

(** [str] of a non-negative [int] is a numeral, and denotes it. *)
Lemma str_of_int_numeral z :
  (0 <= z)%Z ->
  is_numeral (str_of_int z) = true /\ numeral_value (str_of_int z) = z.
Proof.
  intros Hz. destruct z as [|p|p]; [split; reflexivity| |lia].
  rewrite str_of_int_pos. split.
  - pose proof (DecimalPos.Unsigned.to_uint_nonnil p) as H.
    pose proof (string_of_uint_decimal (Pos.to_uint p)) as Hd.
    unfold is_numeral.
    destruct (Pos.to_uint p); try congruence; exact Hd.
  - pose proof (uint_value_weights (Pos.to_uint p) 0) as H.
    rewrite uint_value_of_uint, DecimalPos.Unsigned.of_to in H.
    simpl Z.of_N in H. lia.
Qed.

(** [str] of a negative [int] starts with the sign. *)
Lemma str_of_int_negative z : (z < 0)%Z -> isdigit (str_of_int z) = false.
Proof. intros Hz. destruct z; try lia. reflexivity. Qed.

Lemma int_str_of_int z : (0 <= z)%Z -> Py.int (str_of_int z) = Ok z.
Proof.
  intros Hz. destruct (str_of_int_numeral z Hz) as [Hn Hv].
  now rewrite int_numeral, Hv.
Qed.

(** ** Text through a file *)

Lemma universal_newlines_no_cr s :
  no_cr s = true -> universal_newlines s = s.
Proof.
  unfold no_cr. induction s as [|c s IH]; [reflexivity|].
  cbn [all_chars universal_newlines].
  intros [Hc Hs]%andb_true_iff. apply negb_true_iff in Hc.
  rewrite Hc. now rewrite IH.
Qed.

Lemma all_chars_no_cr (p : ascii -> bool) s :
  p cr = false -> all_chars p s = true -> no_cr s = true.
Proof.
  intros Hp. unfold no_cr. apply all_chars_weaken. intros c Hc.
  destruct (Ascii.eqb_spec c cr) as [->|_]; [congruence | reflexivity].
Qed.

Lemma numeral_no_cr s : is_numeral s = true -> no_cr s = true.
Proof.
  intros H. apply (all_chars_no_cr is_decimal); [reflexivity|].
  now destruct s.
Qed.

Lemma plain_text_no_cr s : plain_text s = true -> no_cr s = true.
Proof. apply all_chars_no_cr. reflexivity. Qed.

Lemma element_text_kept_no_cr s :
  element_text_kept s = true -> no_cr s = true.
Proof.
  destruct s as [|c s]; [reflexivity|]. unfold element_text_kept.
  apply all_chars_no_cr. reflexivity.
Qed.

Lemma plain_char_not_blanked c :
  (32 <=? code c)%N = true -> XmlFile.blank_whitespace c = c.
Proof. by_cases_on_char c. Qed.

Lemma plain_char_allowed c :
  (32 <=? code c)%N = true -> XmlFile.xml_char c = true.
Proof. unfold XmlFile.xml_char. now intros ->. Qed.

(** An attribute value without control characters is read as written. *)
Lemma attribute_text_plain s :
  plain_text s = true -> XmlFile.attribute_text s = s.
Proof.
  intros H. unfold XmlFile.attribute_text.
  rewrite universal_newlines_no_cr by now apply plain_text_no_cr.
  unfold plain_text in H. induction s as [|c s IH]; [reflexivity|].
  cbn [all_chars] in H. apply andb_true_iff in H as [Hc Hs].
  cbn [map_chars]. now rewrite plain_char_not_blanked, IH.
Qed.

Lemma plain_text_allowed s :
  plain_text s = true -> all_chars XmlFile.xml_char s = true.
Proof. apply all_chars_weaken, plain_char_allowed. Qed.

(** An element text that is kept is read as written, and is not taken for
    no text. *)
Lemma leaf_text_kept s :
  element_text_kept s = true -> XmlFile.leaf_text (VStr s) = VStr s.
Proof.
  intros H. pose proof (element_text_kept_no_cr s H) as Hcr.
  destruct s as [|c s]; [discriminate|].
  unfold XmlFile.leaf_text. cbn [XmlFile.falsy].
  now rewrite universal_newlines_no_cr.
Qed.

Lemma element_text_kept_allowed s :
  element_text_kept s = true -> all_chars XmlFile.xml_char s = true.
Proof.
  destruct s as [|c s]; [reflexivity|]. unfold element_text_kept.
  apply all_chars_weaken. intros a Ha. unfold XmlFile.xml_char.
  apply orb_true_iff in Ha as [Ha%orb_true_iff|Ha].
  - destruct Ha as [->| ->]; [reflexivity | now rewrite orb_true_r].
  - rewrite Ha. now rewrite !orb_true_r.
Qed.

Lemma str_of_int_plain z : plain_text (str_of_int z) = true.
Proof.
  assert (Hd : forall d,
            plain_text (NilEmpty.string_of_uint d) = true).
  { intros d. unfold plain_text.
    apply (all_chars_weaken is_decimal); [|apply string_of_uint_decimal].
    intros c. by_cases_on_char c. }
  destruct z as [|p|p]; [reflexivity| |].
  - rewrite str_of_int_pos. apply Hd.
  - unfold str_of_int. cbn [Z.to_int NilZero.string_of_int].
    pose proof (DecimalPos.Unsigned.to_uint_nonnil p) as Hp.
    unfold NilZero.string_of_uint.
    destruct (Pos.to_uint p) eqn:E; try congruence;
      rewrite <- E; unfold plain_text; cbn [all_chars];
      apply andb_true_iff; (split; [reflexivity | apply Hd]).
Qed.

(** ** The CSV codec of [principes_1_2.py] *)

Import Principes12.

(** The row that [save_entities_to_csv] writes for an entity. *)
Lemma encoded_row e :
  Csv.writerow (to_csv_row e)
  = [Csv.field (entity_id e); Csv.field (name e); Csv.field (own_field e)].
Proof. destruct e; reflexivity. Qed.

(** What [decode_row] does with a row of three fields, by its third. *)
Lemma decode_row_three i n a :
  decode_row [i; n; a]
  = if isdigit a then
      if is_numeral a
      then Ok (Pedestrian (VStr i) (VStr n) (VInt (numeral_value a)))
      else Raise ValueError_literal
    else Ok (Vehicle (VStr i) (VStr n) (VStr a)).
Proof.
  unfold decode_row. destruct (isdigit a) eqn:Hd; [|reflexivity].
  destruct (is_numeral a) eqn:Hn.
  - now rewrite int_numeral.
  - now rewrite int_refuses_superscripts.
Qed.

(** CSV decoding returns vehicles and pedestrians only. *)
Lemma decode_row_never_light_state_action row i n t :
  decode_row row <> Ok (LightStateAction i n t).
Proof.
  destruct row as [|a [|b [|c [|d row]]]]; try discriminate.
  rewrite decode_row_three.
  destruct (isdigit c); [destruct (is_numeral c)|]; discriminate.
Qed.

Lemma decode_row_length row :
  List.length row <> 3%nat -> decode_row row = Raise ValueError_unpack.
Proof.
  destruct row as [|a [|b [|c [|d row]]]]; simpl; intros H;
    try reflexivity; congruence.
Qed.

(** Decoding the row written for a [csv_faithful] entity. *)
Lemma decode_row_of_faithful e :
  csv_faithful e = true ->
  decode_row (Csv.writerow (to_csv_row e)) = Ok e.
Proof.
  intros H. rewrite encoded_row, decode_row_three.
  destruct e as [[| |i] [| |n] [| |m] | [| |i] [| |n] [|a|] | i n t];
    try discriminate; cbn [entity_id name own_field Csv.field Py.str].
  - cbn [csv_faithful] in H. apply negb_true_iff in H. now rewrite H.
  - cbn [csv_faithful] in H. apply Z.leb_le in H.
    destruct (str_of_int_numeral a H) as [Hn Hv].
    now rewrite (numeral_isdigit _ Hn), Hn, Hv.
Qed.

(** C2, as stated, fails on the first entity of the script: the integer
    identifier [1] of [Vehicle(1, 'Car A', 'Model X')] is read back as the
    text ['1']. *)
Lemma C2_int_id_read_back_as_text :
  isdigit "Model X" = false
  /\ decode_row (Csv.writerow (to_csv_row
       (Vehicle (VInt 1) (VStr "Car A") (VStr "Model X"))))
     = Ok (Vehicle (VStr "1") (VStr "Car A") (VStr "Model X"))
  /\ decode_row (Csv.writerow (to_csv_row
       (Vehicle (VInt 1) (VStr "Car A") (VStr "Model X"))))
     <> Ok (Vehicle (VInt 1) (VStr "Car A") (VStr "Model X")).
Proof.
  split; [reflexivity|]. split; [reflexivity|].
  intros H. vm_compute in H. discriminate H.
Qed.

(** The row written for an entity without carriage return in its text is
    read from the file as it was written. *)
Lemma written_row_kept e :
  csv_faithful e = true -> csv_kept e = true ->
  map universal_newlines (Csv.writerow (to_csv_row e))
  = Csv.writerow (to_csv_row e).
Proof.
  intros Hf Hk. rewrite encoded_row.
  destruct e as [[| |i] [| |n] [| |m] | [| |i] [| |n] [|a|] | i n t];
    try discriminate; cbn [entity_id name own_field Csv.field Py.str map];
    cbn [csv_kept] in Hk.
  - apply andb_true_iff in Hk as [[Hi Hn]%andb_true_iff Hm].
    now rewrite !universal_newlines_no_cr.
  - apply andb_true_iff in Hk as [Hi Hn].
    cbn [csv_faithful] in Hf. apply Z.leb_le in Hf.
    destruct (str_of_int_numeral a Hf) as [Ha _].
    now rewrite !universal_newlines_no_cr by auto using numeral_no_cr.
Qed.

(** C2 (amended): for every Vehicle whose identifier, name and model are
    text without carriage return and whose model [isdigit()] rejects, and
    for every Pedestrian whose identifier and name are text without
    carriage return and whose age is a non-negative integer, decoding the
    CSV row read from the file written for it gives the entity back, and so
    does reading the file saved for the entity alone. *)
Theorem C2_csv_round_trip (e : Entity) :
  csv_faithful e = true ->
  csv_kept e = true ->
  decode_row (map universal_newlines (Csv.writerow (to_csv_row e))) = Ok e
  /\ Pipeline.csv_saved_then_read [e] = Ok [e].
Proof.
  intros Hf Hk.
  assert (H : decode_row (map universal_newlines
                            (Csv.writerow (to_csv_row e))) = Ok e).
  { rewrite written_row_kept by assumption.
    now apply decode_row_of_faithful. }
  split; [exact H|].
  unfold Pipeline.csv_saved_then_read, CsvFile.read_back,
    save_entities_to_csv.
  cbn [map read_entities_from_csv for_each]. now rewrite H.
Qed.

Lemma C2_csv_round_trip_witness :
  (decode_row (map universal_newlines (Csv.writerow (to_csv_row
     (Vehicle (VStr "3") (VStr "Car B") (VStr "Model Y")))))
   = Ok (Vehicle (VStr "3") (VStr "Car B") (VStr "Model Y"))
   /\ Pipeline.csv_saved_then_read
        [Vehicle (VStr "3") (VStr "Car B") (VStr "Model Y")]
      = Ok [Vehicle (VStr "3") (VStr "Car B") (VStr "Model Y")])
  /\ (decode_row (map universal_newlines (Csv.writerow (to_csv_row
        (Pedestrian (VStr "2") (VStr "John Doe") (VInt 30)))))
      = Ok (Pedestrian (VStr "2") (VStr "John Doe") (VInt 30))
      /\ Pipeline.csv_saved_then_read
           [Pedestrian (VStr "2") (VStr "John Doe") (VInt 30)]
         = Ok [Pedestrian (VStr "2") (VStr "John Doe") (VInt 30)]).
Proof.
  split.
  - apply (C2_csv_round_trip
             (Vehicle (VStr "3") (VStr "Car B") (VStr "Model Y")));
      reflexivity.
  - apply (C2_csv_round_trip
             (Pedestrian (VStr "2") (VStr "John Doe") (VInt 30)));
      reflexivity.
Defined.


(** The entities of [csv_faithful] are the only ones the CSV file gives
    back as they were. *)
Lemma csv_round_trip_only_faithful e :
  decode_row (Csv.writerow (to_csv_row e)) = Ok e -> csv_faithful e = true.
Proof.
  rewrite encoded_row, decode_row_three.
  destruct e as [i n m | i n a | i n t];
    cbn [entity_id name own_field];
    destruct (isdigit _) eqn:Hd; try destruct (is_numeral _) eqn:Hn;
    intros H; try discriminate H; injection H as Hi Hn' Hf.
  - destruct i, n, m; try discriminate. cbn [Csv.field] in Hd.
    cbn [csv_faithful]. now rewrite Hd.
  - destruct i, n, a as [|age|]; try discriminate. cbn [csv_faithful].
    destruct (Z.leb_spec 0 age) as [Hle|Hlt]; [reflexivity|].
    cbn [Csv.field Py.str] in Hd.
    rewrite (str_of_int_negative _ Hlt) in Hd. discriminate.
Qed.

(** C3: for every Vehicle whose model is a numeral (one or more of the
    digits 0 to 9), decoding the CSV row written for it gives a Pedestrian
    whose age is the integer the model denotes; identifier and name come
    back as the text written. *)
Theorem C3_numeric_model_read_as_age (i n : value) (model : string) :
  is_numeral model = true ->
  decode_row (Csv.writerow (to_csv_row (Vehicle i n (VStr model))))
  = Ok (Pedestrian (VStr (Csv.field i)) (VStr (Csv.field n))
                   (VInt (numeral_value model))).
Proof.
  intros H. rewrite encoded_row, decode_row_three.
  cbn [entity_id name own_field Csv.field].
  now rewrite (numeral_isdigit _ H), H.
Qed.

(** [Vehicle(id=1, name="X", model="12345")] decodes as a Pedestrian of
    age 12345. *)
Lemma C3_numeric_model_read_as_age_witness :
  decode_row (Csv.writerow (to_csv_row
    (Vehicle (VInt 1) (VStr "X") (VStr "12345"))))
  = Ok (Pedestrian (VStr "1") (VStr "X") (VInt 12345)).
Proof.
  apply (C3_numeric_model_read_as_age (VInt 1) (VStr "X") "12345").
  reflexivity.
Defined.

(** C5: a CSV row that does not have exactly 3 columns makes decoding
    raise (the unpacking [ValueError]), and an [Entity] element without its
    [Name] child, or with neither a [Model] nor an [Age] child, makes
    decoding raise (the [AttributeError] of [None.text]); the exception is
    not caught, so the whole read fails.  A row with exactly 3 columns never
    takes the unpacking error branch, a file whose rows have 3 columns, the
    third a numeral whenever [isdigit()] accepts it, is read without error,
    and an element with a [Name] child and a [Model] or an [Age] child is
    decoded without error. *)
Theorem C5_malformed_input_raises :
  (forall row, List.length row <> 3%nat ->
     decode_row row = Raise ValueError_unpack)
  /\ (forall header rows row, In row rows -> List.length row <> 3%nat ->
        succeeds (read_entities_from_csv (header :: rows)) = false)
  /\ (forall e, find e "Name" = None ->
        decode_entity e = Raise AttributeError_NoneType)
  /\ (forall e, find e "Model" = None -> find e "Age" = None ->
        decode_entity e = Raise AttributeError_NoneType)
  /\ (forall root e, In e (findall_desc root "Entity") ->
        find e "Name" = None
        \/ (find e "Model" = None /\ find e "Age" = None) ->
        succeeds (parse_entities_from_xml root) = false)
  /\ (forall row, List.length row = 3%nat ->
        decode_row row <> Raise ValueError_unpack)
  /\ (forall header rows,
        (forall row, In row rows ->
           exists i n a, row = [i; n; a]
                         /\ (isdigit a = true -> is_numeral a = true)) ->
        succeeds (read_entities_from_csv (header :: rows)) = true)
  /\ (forall e, find e "Name" <> None ->
        find e "Model" <> None \/ find e "Age" <> None ->
        succeeds (decode_entity e) = true).
Proof.
  assert (Hname : forall e, find e "Name" = None ->
            decode_entity e = Raise AttributeError_NoneType).
  { intros e H. unfold decode_entity. now rewrite H. }
  assert (Hchild : forall e, find e "Model" = None -> find e "Age" = None ->
            decode_entity e = Raise AttributeError_NoneType).
  { intros e Hm Ha. unfold decode_entity. rewrite Hm, Ha.
    destruct (find e "Name"); reflexivity. }
  repeat apply conj.
  - exact decode_row_length.
  - intros header rows row Hin Hlen. cbn [read_entities_from_csv].
    apply (for_each_raises _ _ row Hin).
    now rewrite decode_row_length.
  - exact Hname.
  - exact Hchild.
  - intros root e Hin H. unfold parse_entities_from_xml.
    apply (for_each_raises _ _ e Hin).
    destruct H as [H|[Hm Ha]]; [rewrite Hname | rewrite Hchild]; auto.
  - intros row Hlen. destruct row as [|i [|n [|a [|d row]]]]; try discriminate.
    rewrite decode_row_three.
    destruct (isdigit a); [destruct (is_numeral a)|]; discriminate.
  - intros header rows H. cbn [read_entities_from_csv].
    induction rows as [|row rows IH]; [reflexivity|].
    destruct (H row (or_introl eq_refl)) as (i & n & a & -> & Ha).
    cbn [for_each]. rewrite decode_row_three.
    assert (IH' : succeeds (for_each decode_row rows) = true).
    { apply IH. intros r Hr. apply H. now right. }
    destruct (for_each decode_row rows); [|discriminate].
    destruct (isdigit a); [rewrite Ha by reflexivity|]; reflexivity.
  - intros e Hn Hc. unfold decode_entity.
    destruct (find e "Name"); [|congruence].
    destruct (find e "Model"); [reflexivity|].
    destruct (find e "Age"); [reflexivity|].
    destruct Hc; congruence.
Qed.

Lemma C5_malformed_input_raises_witness :
  decode_row ["4"; "Jane Doe"] = Raise ValueError_unpack
  /\ succeeds (read_entities_from_csv
       [csv_header; ["1"; "Car A"; "Model X"]; ["4"; "Jane Doe"]]) = false
  /\ decode_entity (Elem "Entity" [("id", VStr "4")] VNone
       [Elem "Age" [] (VStr "25") []]) = Raise AttributeError_NoneType
  /\ decode_entity (Elem "Entity" [("id", VStr "4")] VNone
       [Elem "Name" [] (VStr "Jane Doe") []]) = Raise AttributeError_NoneType
  /\ succeeds (parse_entities_from_xml (Elem "Entities" [] VNone
       [Elem "Entity" [("id", VStr "4")] VNone
          [Elem "Name" [] (VStr "Jane Doe") []]])) = false
  /\ decode_row ["4"; "Jane Doe"; "25"] <> Raise ValueError_unpack
  /\ succeeds (read_entities_from_csv
       [csv_header; ["1"; "Car A"; "Model X"]; ["2"; "John Doe"; "30"]])
     = true
  /\ succeeds (decode_entity (Elem "Entity" [("id", VStr "4")] VNone
       [Elem "Name" [] (VStr "Jane Doe") []; Elem "Age" [] (VStr "25") []]))
     = true.
Proof.
  destruct C5_malformed_input_raises
    as (H1 & H2 & H3 & H4 & H5 & H6 & H7 & H8).
  repeat apply conj.
  - apply H1. simpl. lia.
  - apply (H2 _ _ ["4"; "Jane Doe"]); simpl; [tauto | lia].
  - apply H3. reflexivity.
  - apply H4; reflexivity.
  - apply (H5 _ (Elem "Entity" [("id", VStr "4")] VNone
                   [Elem "Name" [] (VStr "Jane Doe") []])).
    + simpl. tauto.
    + right. split; reflexivity.
  - apply H6. reflexivity.
  - apply H7. intros row [<-|[<-|[]]].
    + exists "1", "Car A", "Model X". split; [reflexivity | discriminate].
    + exists "2", "John Doe", "30". split; reflexivity.
  - apply H8; [discriminate | right; discriminate].
Defined.

(** C6: the CSV file written for a collection is the header row
    ["Entity ID", "Name", "Model/Age"] followed by one row per entity, in
    the order of the collection; each row is the identifier and the name
    followed by the one field of the subclass (model, age or light type). *)
Theorem C6_csv_file_layout :
  (forall e, to_csv_row e = [entity_id e; name e] ++ [own_field e])
  /\ (forall entities,
        save_entities_to_csv entities
        = ["Entity ID"; "Name"; "Model/Age"]
          :: map (fun e => [Csv.field (entity_id e); Csv.field (name e);
                            Csv.field (own_field e)]) entities)
  /\ (forall entities,
        List.length (save_entities_to_csv entities)
        = S (List.length entities))
  /\ (forall entities k e, nth_error entities k = Some e ->
        nth_error (save_entities_to_csv entities) (S k)
        = Some [Csv.field (entity_id e); Csv.field (name e);
                Csv.field (own_field e)]).
Proof.
  assert (Hsave : forall entities,
            save_entities_to_csv entities
            = ["Entity ID"; "Name"; "Model/Age"]
              :: map (fun e => [Csv.field (entity_id e); Csv.field (name e);
                                Csv.field (own_field e)]) entities).
  { intros entities. unfold save_entities_to_csv. f_equal.
    apply map_ext. exact encoded_row. }
  repeat apply conj.
  - intros []; reflexivity.
  - exact Hsave.
  - intros entities. rewrite Hsave. cbn [List.length]. now rewrite length_map.
  - intros entities k e Hk. rewrite Hsave. cbn [nth_error].
    now rewrite nth_error_map, Hk.
Qed.

Lemma C6_csv_file_layout_witness :
  nth_error (save_entities_to_csv
    [Vehicle (VInt 1) (VStr "Car A") (VStr "Model X");
     Pedestrian (VInt 2) (VStr "John Doe") (VInt 30)]) 2
  = Some ["2"; "John Doe"; "30"].
Proof.
  destruct C6_csv_file_layout as (_ & _ & _ & H).
  apply (H _ 1%nat (Pedestrian (VInt 2) (VStr "John Doe") (VInt 30))).
  reflexivity.
Defined.

(** C9 at the failing input: [isdigit()] accepts the superscript two, the
    row has three fields, and decoding it raises the [ValueError] of
    [int()]; the same happens to the row written for a vehicle of that
    model. *)
Theorem C9_superscript_digit_row_raises :
  isdigit superscript_two = true
  /\ decode_row ["1"; "X"; superscript_two] = Raise ValueError_literal
  /\ decode_row (Csv.writerow (to_csv_row
       (Vehicle (VStr "1") (VStr "X") (VStr superscript_two))))
     = Raise ValueError_literal
  /\ succeeds (read_entities_from_csv
       (save_entities_to_csv
          [Vehicle (VStr "1") (VStr "X") (VStr superscript_two)])) = false.
Proof. repeat split. Qed.

(** ** The comparator *)

Lemma eqb_eq (a b : value) : Py.eqb a b = true <-> a = b.
Proof.
  destruct a, b; simpl; split; intros H;
    try discriminate; try reflexivity.
  - apply Z.eqb_eq in H. now subst.
  - injection H as ->. apply Z.eqb_refl.
  - apply String.eqb_eq in H. now subst.
  - injection H as ->. apply String.eqb_refl.
Qed.

Lemma same_id_and_name_spec a b :
  same_id_and_name a b = true
  <-> entity_id a = entity_id b /\ name a = name b.
Proof.
  unfold same_id_and_name. now rewrite andb_true_iff, !eqb_eq.
Qed.

(** The pairs of [list_prod] are visited in the order of the two loops. *)
Lemma compare_entities_pairs A B :
  compare_entities A B
  = map (fun p => match_line (fst p))
        (filter (fun p => same_id_and_name (fst p) (snd p)) (list_prod A B)).
Proof.
  unfold compare_entities.
  induction A as [|a A IH]; [reflexivity|].
  cbn [flat_map list_prod]. rewrite filter_app, map_app, <- IH. f_equal.
  clear IH. induction B as [|b B IH]; [reflexivity|].
  cbn [flat_map map filter fst snd].
  destruct (same_id_and_name a b); cbn [app map fst]; now rewrite IH.
Qed.

(** C7: the comparator prints one match line for every pair (a, b), a from
    the first collection and b from the second, with equal identifier and
    equal name, and nothing for any other pair; pairs are not deduplicated.
    For singletons it prints one line when identifier and name agree and
    none when only the identifier agrees. *)
Theorem C7_compare_reports_matching_pairs :
  (forall A B,
     compare_entities A B
     = map (fun p => match_line (fst p))
           (filter (fun p => same_id_and_name (fst p) (snd p))
                   (list_prod A B)))
  /\ (forall a b,
        same_id_and_name a b = true
        <-> entity_id a = entity_id b /\ name a = name b)
  /\ (forall a b,
        compare_entities [a] [b]
        = if same_id_and_name a b then [match_line a] else [])
  /\ (forall a b, entity_id a = entity_id b -> name a = name b ->
        List.length (compare_entities [a] [b]) = 1%nat)
  /\ (forall a b, entity_id a = entity_id b -> name a <> name b ->
        compare_entities [a] [b] = [])
  /\ (forall a b, same_id_and_name a b = true ->
        compare_entities [a; a] [b] = [match_line a; match_line a]).
Proof.
  assert (Hone : forall a b,
            compare_entities [a] [b]
            = if same_id_and_name a b then [match_line a] else []).
  { intros a b. cbn. now destruct (same_id_and_name a b). }
  repeat apply conj.
  - exact compare_entities_pairs.
  - exact same_id_and_name_spec.
  - exact Hone.
  - intros a b Hi Hn. rewrite Hone.
    now rewrite (proj2 (same_id_and_name_spec a b) (conj Hi Hn)).
  - intros a b Hi Hn. rewrite Hone.
    destruct (same_id_and_name a b) eqn:H; [|reflexivity].
    apply same_id_and_name_spec in H. tauto.
  - intros a b H. cbn. now rewrite H.
Qed.

Lemma C7_compare_reports_matching_pairs_witness :
  List.length (compare_entities
    [Vehicle (VStr "1") (VStr "a") (VStr "Model X")]
    [Pedestrian (VStr "1") (VStr "a") (VStr "30")]) = 1%nat
  /\ compare_entities
       [Vehicle (VStr "1") (VStr "a") (VStr "Model X")]
       [Vehicle (VStr "1") (VStr "b") (VStr "Model X")] = [].
Proof.
  destruct C7_compare_reports_matching_pairs as (_ & _ & _ & H1 & H0 & _).
  split.
  - apply H1; reflexivity.
  - apply H0; [reflexivity | discriminate].
Defined.

(** ** The XML codecs *)

Import FivePrinciples.

Lemma fold_append {A : Type} (f : A -> Element) l : forall t a x c,
  fold_left (fun root entity => append root (f entity)) l (Elem t a x c)
  = Elem t a x (c ++ map f l).
Proof.
  induction l as [|e l IH]; intros t a x c; cbn [fold_left map].
  - now rewrite app_nil_r.
  - cbn [append]. rewrite IH, <- app_assoc. reflexivity.
Qed.

(** The tree of [create_sample_xml]: a root [Entities] whose children are
    the elements of the entities, in the order of the collection. *)
Lemma create_sample_xml_tree entities :
  create_sample_xml entities
  = Elem "Entities" [] VNone (map encode_entity entities).
Proof. unfold create_sample_xml, Element_. now rewrite fold_append. Qed.

Lemma filter_flat_map {A B : Type} (p : B -> bool) (f : A -> list B) l :
  filter p (flat_map f l) = flat_map (fun a => filter p (f a)) l.
Proof.
  induction l as [|a l IH]; [reflexivity|].
  cbn [flat_map]. now rewrite filter_app, IH.
Qed.

Lemma flat_map_singleton {A B : Type} (f : A -> B) l :
  flat_map (fun a => [f a]) l = map f l.
Proof. induction l as [|a l IH]; [reflexivity|]. cbn. now rewrite IH. Qed.

(** C1, as stated, fails on the entities of the scripts: the Pedestrian
    [Pedestrian(2, 'John Doe', 30)] comes back with the texts ['2'] and
    ['30'], and the element of [LightStateAction(1, 'Light State Action',
    'myLights')] is refused by [parse_entities_from_xml] and yields no
    entity through [parse_xml]. *)
Lemma C1_int_fields_and_light_state_action_not_read_back :
  decode_entity (to_xml_element
    (Pedestrian (VInt 2) (VStr "John Doe") (VInt 30)))
  = Ok (Pedestrian (VStr "2") (VStr "John Doe") (VStr "30"))
  /\ decode_entity (to_xml_element
       (Pedestrian (VInt 2) (VStr "John Doe") (VInt 30)))
     <> Ok (Pedestrian (VInt 2) (VStr "John Doe") (VInt 30))
  /\ decode_entity (to_xml_element
       (LightStateAction (VInt 1) (VStr "Light State Action")
                         (VStr "myLights")))
     = Raise AttributeError_NoneType
  /\ parse_xml (FivePrinciples.XMLHandler_save
       (LightStateAction (VInt 1) (VStr "Light State Action")
                         (VStr "myLights")))
     = Ok [].
Proof.
  split; [reflexivity|]. split; [|split; reflexivity].
  intros H. vm_compute in H. discriminate H.
Qed.

(** *** [create_sample_xml] through its file *)

Lemma forallb_map {A B : Type} (p : B -> bool) (f : A -> B) l :
  forallb p (map f l) = forallb (fun a => p (f a)) l.
Proof.
  induction l as [|a l IH]; [reflexivity|]. cbn. now rewrite IH.
Qed.

Lemma writable_encoded e :
  XmlFile.writable (encode_entity e) = xml_writable e.
Proof.
  destruct e as [i n m | i n a | i n t]; cbn;
    now rewrite ?orb_true_r, ?andb_true_r.
Qed.

Lemma well_formed_encoded e :
  XmlFile.well_formed (encode_entity e) = xml_well_formed e.
Proof.
  destruct e as [i n m | i n a | i n t]; unfold xml_well_formed;
    cbn -[Py.str]; now rewrite ?andb_true_r, ?andb_assoc.
Qed.

Lemma writable_created entities :
  XmlFile.writable (create_sample_xml entities)
  = forallb xml_writable entities.
Proof.
  rewrite create_sample_xml_tree. cbn [XmlFile.writable forallb].
  cbn [XmlFile.falsy orb andb]. rewrite forallb_map.
  induction entities as [|e es IH]; [reflexivity|].
  cbn [forallb]. now rewrite writable_encoded, IH.
Qed.

Lemma well_formed_created entities :
  XmlFile.well_formed (create_sample_xml entities)
  = forallb xml_well_formed entities.
Proof.
  rewrite create_sample_xml_tree. cbn [XmlFile.well_formed forallb].
  cbn [XmlFile.chars_allowed andb]. rewrite forallb_map.
  induction entities as [|e es IH]; [reflexivity|].
  cbn [forallb]. now rewrite well_formed_encoded, IH.
Qed.

(** The [Entity] elements of the tree read from the file are those
    written for the entities, and nothing else. *)
Lemma findall_pretty_created entities :
  findall_desc (XmlFile.pretty_parsed 0 (create_sample_xml entities))
               "Entity"
  = map (fun e => XmlFile.pretty_parsed 1 (encode_entity e)) entities.
Proof.
  rewrite create_sample_xml_tree. unfold findall_desc, descendants.
  cbn [XmlFile.pretty_parsed children]. rewrite map_map.
  rewrite flat_map_concat_map, map_map, <- flat_map_concat_map.
  rewrite filter_flat_map, <- flat_map_singleton.
  apply flat_map_ext. intros []; reflexivity.
Qed.

Lemma decode_pretty_encoded e :
  decode_entity (XmlFile.pretty_parsed 1 (encode_entity e))
  = xml_read_back e.
Proof. destruct e; reflexivity. Qed.

(** What the pipeline does with any collection. *)
Lemma xml_pipeline entities :
  Pipeline.xml_created_then_parsed entities
  = if negb (forallb xml_writable entities)
    then Raise TypeError_serialization
    else if negb (forallb xml_well_formed entities)
    then Raise ExpatError
    else for_each xml_read_back entities.
Proof.
  unfold Pipeline.xml_created_then_parsed, XmlFile.pretty_file.
  rewrite writable_created, well_formed_created.
  destruct (forallb xml_writable entities); [|reflexivity].
  destruct (forallb xml_well_formed entities); [|reflexivity].
  cbn [negb bind]. unfold parse_entities_from_xml.
  rewrite findall_pretty_created, for_each_map.
  induction entities as [|e es IH]; [reflexivity|].
  cbn [for_each]. now rewrite decode_pretty_encoded, IH.
Qed.

Lemma xml_kept_writable e : xml_kept e = true -> xml_writable e = true.
Proof.
  destruct e as [[| |i] [| |n] [| |m] | [| |i] [| |n] [| |a] | i n t];
    try discriminate; intros _; cbn;
    now rewrite ?orb_true_r.
Qed.

Lemma xml_kept_well_formed e :
  xml_kept e = true -> xml_well_formed e = true.
Proof.
  destruct e as [[| |i] [| |n] [| |m] | [| |i] [| |n] [| |a] | i n t];
    try discriminate; cbn [xml_kept];
    intros [[Hi Hn]%andb_true_iff Hm]%andb_true_iff;
    unfold xml_well_formed;
    cbn [entity_id name Py.str XmlFile.chars_allowed];
    now rewrite (plain_text_allowed _ Hi),
      (element_text_kept_allowed _ Hn), (element_text_kept_allowed _ Hm).
Qed.

Lemma xml_kept_read_back e : xml_kept e = true -> xml_read_back e = Ok e.
Proof.
  destruct e as [[| |i] [| |n] [| |m] | [| |i] [| |n] [| |a] | i n t];
    try discriminate; cbn [xml_kept];
    intros [[Hi Hn]%andb_true_iff Hm]%andb_true_iff;
    cbn [xml_read_back Py.str];
    now rewrite (attribute_text_plain _ Hi), (leaf_text_kept _ Hn),
      (leaf_text_kept _ Hm).
Qed.

Lemma xml_pipeline_kept entities :
  forallb xml_kept entities = true ->
  Pipeline.xml_created_then_parsed entities = Ok entities.
Proof.
  intros H. rewrite forallb_forall in H. rewrite xml_pipeline.
  assert (Hw : forallb xml_writable entities = true).
  { apply forallb_forall. intros e He. apply xml_kept_writable. auto. }
  assert (Hf : forallb xml_well_formed entities = true).
  { apply forallb_forall. intros e He. apply xml_kept_well_formed. auto. }
  rewrite Hw, Hf. cbn [negb].
  rewrite (for_each_ok _ (fun e => e)); [now rewrite map_id|].
  intros e He. apply xml_kept_read_back. auto.
Qed.

(** C1 (amended): for every Vehicle and every Pedestrian whose fields are
    all text that the XML file keeps (an identifier without control
    character; a name and a model or age that are not empty and hold no
    control character but tab and line feed), [parse_entities_from_xml]
    reads from the file that [create_sample_xml] wrote for the entity a
    value equal to it. *)
Theorem C1_xml_round_trip (e : Entity) :
  xml_kept e = true ->
  Pipeline.xml_created_then_parsed [e] = Ok [e].
Proof.
  intros H. apply xml_pipeline_kept. cbn [forallb]. now rewrite H.
Qed.

Lemma C1_xml_round_trip_witness :
  Pipeline.xml_created_then_parsed
    [Vehicle (VStr "1") (VStr "Car A") (VStr "Model X")]
  = Ok [Vehicle (VStr "1") (VStr "Car A") (VStr "Model X")].
Proof.
  apply (C1_xml_round_trip
           (Vehicle (VStr "1") (VStr "Car A") (VStr "Model X"))).
  reflexivity.
Defined.

(** C4, as stated, fails on the element of a LightStateAction: it has a
    [LightStateAction] child, [parse_entities_from_xml] raises on it instead
    of returning a LightStateAction, and [parse_xml] finds no entity in the
    document that holds it.  It also fails on an element with both a
    [Model] and an [Age] child, which is read as a Vehicle. *)
Lemma C4_light_state_action_child_not_dispatched :
  find (to_xml_element
          (LightStateAction (VInt 1) (VStr "Light State Action")
                            (VStr "myLights"))) "LightStateAction" <> None
  /\ decode_entity (to_xml_element
       (LightStateAction (VInt 1) (VStr "Light State Action")
                         (VStr "myLights")))
     = Raise AttributeError_NoneType
  /\ parse_xml (FivePrinciples.XMLHandler_save
       (LightStateAction (VInt 1) (VStr "Light State Action")
                         (VStr "myLights")))
     = Ok []
  /\ decode_entity (Elem "Entity" [("id", VStr "2")] VNone
       [Elem "Name" [] (VStr "John Doe") [];
        Elem "Age" [] (VStr "30") [];
        Elem "Model" [] (VStr "Model X") []])
     = Ok (Vehicle (VStr "2") (VStr "John Doe") (VStr "Model X")).
Proof. split; [discriminate|]. repeat split. Qed.

(** C4 (amended): [parse_entities_from_xml] selects the variant by the
    [Model] child alone.  For an element with a [Name] child: with a
    [Model] child it returns a Vehicle, whatever else the element holds;
    without one, with an [Age] child, it returns a Pedestrian; with neither
    it raises.  A [LightStateAction] child is never looked at and no
    element, with or without a [Name] child, is decoded as a
    LightStateAction.  [parse_xml] returns a LightStateAction for any
    [PrivateAction] element that has a [UserDefinedLight] descendant, and
    raises for one that has none. *)
Theorem C4_xml_dispatch :
  (forall e name_element, find e "Name" = Some name_element ->
     (forall model, find e "Model" = Some model ->
        decode_entity e
        = Ok (Vehicle (get e "id") (text name_element) (text model)))
     /\ (forall age, find e "Model" = None -> find e "Age" = Some age ->
           decode_entity e
           = Ok (Pedestrian (get e "id") (text name_element) (text age)))
     /\ (find e "Model" = None -> find e "Age" = None ->
           decode_entity e = Raise AttributeError_NoneType))
  /\ (forall e i n t, decode_entity e <> Ok (LightStateAction i n t))
  /\ (forall action light,
        find_desc action "UserDefinedLight" = Some light ->
        decode_action action
        = Ok (LightStateAction (VInt 1) (VStr "LightStateAction")
                               (get light "userDefinedLightType")))
  /\ (forall action, find_desc action "UserDefinedLight" = None ->
        decode_action action = Raise AttributeError_NoneType).
Proof.
  repeat apply conj.
  - intros e nm Hn. unfold decode_entity. rewrite Hn. cbn [text_of bind].
    repeat apply conj.
    + now intros m ->.
    + now intros a -> ->.
    + now intros -> ->.
  - intros e i n t. unfold decode_entity.
    destruct (find e "Name"); [|discriminate]. cbn [text_of bind].
    destruct (find e "Model"); [discriminate|].
    destruct (find e "Age"); discriminate.
  - intros action light H. unfold decode_action. now rewrite H.
  - intros action H. unfold decode_action. now rewrite H.
Qed.

Lemma C4_xml_dispatch_witness :
  decode_entity (Elem "Entity" [("id", VStr "3")] VNone
    [Elem "Name" [] (VStr "Car B") []; Elem "Model" [] (VStr "Model Y") []])
  = Ok (Vehicle (VStr "3") (VStr "Car B") (VStr "Model Y"))
  /\ decode_entity (Elem "Entity" [("id", VStr "4")] VNone
       [Elem "Name" [] (VStr "Jane Doe") []; Elem "Age" [] (VStr "25") []])
     = Ok (Pedestrian (VStr "4") (VStr "Jane Doe") (VStr "25"))
  /\ decode_entity (to_xml_element
       (LightStateAction (VInt 1) (VStr "Light State Action")
                         (VStr "myLights")))
     = Raise AttributeError_NoneType
  /\ decode_action (Elem "PrivateAction" [] VNone
       [Elem "AppearanceAction" [] VNone
          [Elem "LightStateAction" [] VNone
             [Elem "LightType" [] VNone
                [Elem "UserDefinedLight"
                   [("userDefinedLightType", VStr "myLights")] VNone []]]]])
     = Ok (LightStateAction (VInt 1) (VStr "LightStateAction")
                            (VStr "myLights"))
  /\ decode_action (Elem "PrivateAction" [] VNone
       [Elem "TeleportAction" [] VNone []])
     = Raise AttributeError_NoneType.
Proof.
  destruct C4_xml_dispatch as (Hentity & _ & Hlight & Hnone).
  repeat apply conj.
  - destruct (Hentity
                (Elem "Entity" [("id", VStr "3")] VNone
                   [Elem "Name" [] (VStr "Car B") [];
                    Elem "Model" [] (VStr "Model Y") []])
                (Elem "Name" [] (VStr "Car B") []) eq_refl) as (H & _).
    apply (H (Elem "Model" [] (VStr "Model Y") [])). reflexivity.
  - destruct (Hentity
                (Elem "Entity" [("id", VStr "4")] VNone
                   [Elem "Name" [] (VStr "Jane Doe") [];
                    Elem "Age" [] (VStr "25") []])
                (Elem "Name" [] (VStr "Jane Doe") []) eq_refl) as (_ & H & _).
    apply (H (Elem "Age" [] (VStr "25") [])); reflexivity.
  - destruct (Hentity
                (to_xml_element
                   (LightStateAction (VInt 1) (VStr "Light State Action")
                                     (VStr "myLights")))
                (Elem "Name" [] (VStr "Light State Action") []) eq_refl)
      as (_ & _ & H).
    apply H; reflexivity.
  - apply (Hlight _ (Elem "UserDefinedLight"
                       [("userDefinedLightType", VStr "myLights")]
                       VNone [])).
    reflexivity.
  - apply Hnone. reflexivity.
Defined.


(** ** [parse_xml] of [five_principles.py] *)




(** ** The run of [principes_1_2.py] *)

(** The script saves its four entities to both files, reads both back and
    compares: every entity is matched, by the text of its identifier. *)
Example script_run :
  Pipeline.script
    [Vehicle (VInt 1) (VStr "Car A") (VStr "Model X");
     Pedestrian (VInt 2) (VStr "John Doe") (VInt 30);
     Vehicle (VInt 3) (VStr "Car B") (VStr "Model Y");
     Pedestrian (VInt 4) (VStr "Jane Doe") (VInt 25)]
  = Ok ["Match found: Car A with ID 1";
        "Match found: John Doe with ID 2";
        "Match found: Car B with ID 3";
        "Match found: Jane Doe with ID 4"].
Proof. reflexivity. Qed.

(** * Further properties *)

(** ** Loops *)

Lemma for_each_succeeds {A B : Type} (body : A -> result B) l :
  succeeds (for_each body l) = forallb (fun a => succeeds (body a)) l.
Proof.
  induction l as [|a l IH]; [reflexivity|].
  cbn [for_each forallb]. destruct (body a); [|reflexivity].
  cbn [bind succeeds andb]. rewrite <- IH.
  now destruct (for_each body l).
Qed.


Lemma forallb_pointwise {A : Type} (p q : A -> bool) l :
  (forall a, p a = q a) -> forallb p l = forallb q l.
Proof.
  intros H. induction l as [|a l IH]; [reflexivity|].
  cbn [forallb]. now rewrite H, IH.
Qed.

Lemma Forall2_length_eq {A B : Type} (R : A -> B -> Prop) l l' :
  Forall2 R l l' -> List.length l = List.length l'.
Proof. induction 1; [reflexivity|]. cbn. now f_equal. Qed.

(** ** Reading a CSV file *)







(** X5: A successful read returns one entity per record after the header, in
    the order of the file, each decoded from its own record; the header is
    not looked at, and a file without any record raises [StopIteration]. *)
Theorem csv_read_one_entity_per_row (file : list (list string))
  (entities : list Entity) :
  read_entities_from_csv file = Ok entities ->
  exists header rows,
    file = header :: rows
    /\ Forall2 (fun row e => decode_row row = Ok e) rows entities
    /\ List.length entities = List.length rows
    /\ (forall header', read_entities_from_csv (header' :: rows)
                        = Ok entities).
Proof.
  destruct file as [|header rows]; [discriminate|].
  cbn [read_entities_from_csv]. intros H. exists header, rows.
  pose proof (for_each_inv _ _ _ H) as HF.
  repeat split; auto. symmetry. exact (Forall2_length_eq _ _ _ HF).
Qed.

Lemma csv_read_one_entity_per_row_witness :
  exists header rows,
    [["id"; "name"; "what"]; ["7"; "Bus"; "Model Z"]; ["8"; "Ann"; "041"]]
    = header :: rows
    /\ Forall2 (fun row e => decode_row row = Ok e) rows
         [Vehicle (VStr "7") (VStr "Bus") (VStr "Model Z");
          Pedestrian (VStr "8") (VStr "Ann") (VInt 41)]
    /\ 2%nat = List.length rows
    /\ (forall header', read_entities_from_csv (header' :: rows)
          = Ok [Vehicle (VStr "7") (VStr "Bus") (VStr "Model Z");
                Pedestrian (VStr "8") (VStr "Ann") (VInt 41)]).
Proof.
  apply (csv_read_one_entity_per_row
           [["id"; "name"; "what"]; ["7"; "Bus"; "Model Z"];
            ["8"; "Ann"; "041"]]).
  reflexivity.
Defined.





(** X8: The class of what is read is chosen by the text of the third column
    alone: a Pedestrian whose age is a negative [int] is read back as a
    Vehicle whose model is the text of that age. *)
Theorem csv_negative_age_read_as_model (i n : value) (age : Z) :
  (age < 0)%Z ->
  decode_row (Csv.writerow (to_csv_row (Pedestrian i n (VInt age))))
  = Ok (Vehicle (VStr (Csv.field i)) (VStr (Csv.field n))
                (VStr (str_of_int age))).
Proof.
  intros H. rewrite encoded_row, decode_row_three.
  cbn [entity_id name own_field Csv.field Py.str].
  now rewrite (str_of_int_negative age H).
Qed.

Lemma csv_negative_age_read_as_model_witness :
  decode_row (Csv.writerow (to_csv_row
    (Pedestrian (VStr "2") (VStr "John Doe") (VInt (-30)))))
  = Ok (Vehicle (VStr "2") (VStr "John Doe") (VStr "-30")).
Proof.
  apply (csv_negative_age_read_as_model
           (VStr "2") (VStr "John Doe") (-30)%Z).
  reflexivity.
Defined.

Lemma decode_written_row (e : Entity) :
  decode_row (map universal_newlines (Csv.writerow (to_csv_row e)))
  = if row_ok (map universal_newlines (Csv.writerow (to_csv_row e)))
    then Ok (csv_read_back e)
    else Raise ValueError_literal.
Proof.
  rewrite encoded_row. cbn [map]. rewrite decode_row_three.
  cbn [row_ok]. unfold csv_read_back.
  destruct (isdigit _) eqn:Hd; destruct (is_numeral _) eqn:Hn;
    try reflexivity.
  apply numeral_isdigit in Hn. congruence.
Qed.


(** ** Reading an XML document *)

Lemma decode_entity_succeeds e : succeeds (decode_entity e) = element_ok e.
Proof.
  unfold decode_entity, element_ok, has_child.
  destruct (find e "Name"); [|reflexivity]. cbn [text_of bind].
  destruct (find e "Model"); [reflexivity|].
  destruct (find e "Age"); reflexivity.
Qed.

(** X11: Parsing a document succeeds exactly when every [Entity] element below
    the root, at any depth, has a [Name] child and a [Model] or an [Age]
    child. *)
Theorem xml_parse_succeeds_iff_elements_ok (root : Element) :
  succeeds (parse_entities_from_xml root)
  = forallb element_ok (findall_desc root "Entity").
Proof.
  unfold parse_entities_from_xml. rewrite for_each_succeeds.
  apply forallb_pointwise. exact decode_entity_succeeds.
Qed.

(** X12: For any collection, writing it with [create_sample_xml] and
    parsing the file raises [TypeError] when a name or a vehicle's model is
    neither falsy nor a [str], else [ExpatError] when a text to write holds
    a forbidden control character, and else gives, per entity and in order,
    what [xml_read_back] says: the identifier as the text of [str()] with
    tabs and line ends read as spaces, name and model as the parser reads
    them (none for an empty one, line ends translated), the age as the
    text of [str()]; a LightStateAction in the collection makes the parse
    raise. *)
Theorem xml_document_read_back (entities : list Entity) :
  Pipeline.xml_created_then_parsed entities
  = if negb (forallb xml_writable entities)
    then Raise TypeError_serialization
    else if negb (forallb xml_well_formed entities)
    then Raise ExpatError
    else for_each xml_read_back entities.
Proof. exact (xml_pipeline entities). Qed.

Lemma xml_read_back_succeeds e :
  succeeds (xml_read_back e) = negb (is_light_state_action e).
Proof. now destruct e. Qed.

(** X13: Writing a collection with [create_sample_xml] and parsing the
    file succeeds exactly when every name and every vehicle's model is
    falsy or a [str], no text to write holds a forbidden control
    character, and the collection holds no LightStateAction. *)
Theorem xml_document_readable_iff_no_light_state_action
  (entities : list Entity) :
  succeeds (Pipeline.xml_created_then_parsed entities)
  = forallb xml_writable entities
    && forallb xml_well_formed entities
    && forallb (fun e => negb (is_light_state_action e)) entities.
Proof.
  rewrite xml_pipeline.
  destruct (forallb xml_writable entities); [|reflexivity].
  destruct (forallb xml_well_formed entities); [|reflexivity].
  cbn [negb andb]. rewrite for_each_succeeds.
  apply forallb_pointwise. exact xml_read_back_succeeds.
Qed.

(** ** [parse_xml] *)

Lemma decode_action_succeeds action :
  succeeds (decode_action action) = has_descendant action "UserDefinedLight".
Proof.
  unfold decode_action, has_descendant.
  destruct (find_desc action "UserDefinedLight"); reflexivity.
Qed.

(** X15: [parse_xml] succeeds exactly when every [PrivateAction] element below
    the root has a [UserDefinedLight] descendant; a single one without
    makes the whole call raise. *)
Theorem parse_xml_succeeds_iff_lights_present (root : Element) :
  succeeds (parse_xml root)
  = forallb (fun action => has_descendant action "UserDefinedLight")
            (findall_desc root "PrivateAction").
Proof.
  unfold parse_xml. rewrite for_each_succeeds.
  apply forallb_pointwise. exact decode_action_succeeds.
Qed.



(** ** More on the comparator *)

Lemma py_eqb_sym (a b : value) : Py.eqb a b = Py.eqb b a.
Proof.
  destruct a, b; try reflexivity; cbn [Py.eqb];
    [apply Z.eqb_sym | apply String.eqb_sym].
Qed.

Lemma same_id_and_name_sym a b :
  same_id_and_name a b = same_id_and_name b a.
Proof.
  unfold same_id_and_name.
  now rewrite (py_eqb_sym (entity_id a)), (py_eqb_sym (name a)).
Qed.

Lemma compare_cons_l a A B :
  compare_entities (a :: A) B
  = compare_entities [a] B ++ compare_entities A B.
Proof. unfold compare_entities. cbn [flat_map]. now rewrite app_nil_r. Qed.

Lemma compare_nil_r A : compare_entities A [] = [].
Proof.
  induction A as [|a A IH]; [reflexivity|].
  rewrite compare_cons_l, IH. reflexivity.
Qed.

Lemma compare_one a b B :
  compare_entities [a] (b :: B)
  = compare_entities [a] [b] ++ compare_entities [a] B.
Proof.
  unfold compare_entities. cbn [flat_map].
  rewrite !app_nil_r. reflexivity.
Qed.

Lemma compare_count_cons_r A b B :
  List.length (compare_entities A (b :: B))
  = (List.length (compare_entities A [b])
     + List.length (compare_entities A B))%nat.
Proof.
  induction A as [|a A IH]; [reflexivity|].
  rewrite (compare_cons_l a A (b :: B)), (compare_cons_l a A [b]),
    (compare_cons_l a A B), compare_one.
  rewrite !length_app, IH. lia.
Qed.

Lemma compare_count_one_one a b :
  List.length (compare_entities [a] [b])
  = List.length (compare_entities [b] [a]).
Proof.
  cbn. rewrite (same_id_and_name_sym a b).
  now destruct (same_id_and_name b a).
Qed.

Lemma compare_count_one_sym a B :
  List.length (compare_entities [a] B)
  = List.length (compare_entities B [a]).
Proof.
  induction B as [|b B IH]; [reflexivity|].
  rewrite compare_one, length_app, IH, (compare_cons_l b B [a]), length_app.
  now rewrite compare_count_one_one.
Qed.

(** X17: The number of matches reported does not depend on which collection is
    given first. *)
Theorem compare_count_symmetric (A B : list Entity) :
  List.length (compare_entities A B) = List.length (compare_entities B A).
Proof.
  induction A as [|a A IH].
  - now rewrite compare_nil_r.
  - rewrite compare_cons_l, length_app, IH, compare_count_cons_r.
    now rewrite compare_count_one_sym.
Qed.

(** X18: Nothing is reported when either collection is empty, and never more
    than one line per pair. *)
Theorem compare_count_bounds (A B : list Entity) :
  compare_entities [] B = []
  /\ compare_entities A [] = []
  /\ (List.length (compare_entities A B)
      <= List.length A * List.length B)%nat.
Proof.
  repeat split; [apply compare_nil_r|].
  rewrite compare_entities_pairs, length_map, <- length_prod.
  apply filter_length_le.
Qed.

Lemma same_id_and_name_key a b :
  same_id_and_name a b = true <-> key a = key b.
Proof.
  rewrite same_id_and_name_spec. unfold key. split.
  - now intros [-> ->].
  - intros H. now injection H.
Qed.

Lemma compare_one_no_match a B :
  ~ In (key a) (map key B) -> compare_entities [a] B = [].
Proof.
  induction B as [|b B IH]; [reflexivity|]. cbn [map In]. intros H.
  rewrite compare_one, IH by tauto. cbn.
  destruct (same_id_and_name a b) eqn:Hab; [|reflexivity].
  apply same_id_and_name_key in Hab. exfalso. apply H. now left.
Qed.

Lemma compare_one_unique a B :
  NoDup (map key B) -> (List.length (compare_entities [a] B) <= 1)%nat.
Proof.
  induction B as [|b B IH]; [cbn; lia|]. cbn [map]. intros H.
  apply NoDup_cons_iff in H as [Hb HB].
  rewrite compare_one, length_app.
  destruct (same_id_and_name a b) eqn:Hab.
  - apply same_id_and_name_key in Hab as Hk.
    rewrite (compare_one_no_match a B) by now rewrite Hk.
    cbn. rewrite Hab. cbn. lia.
  - specialize (IH HB). cbn [compare_entities flat_map]. rewrite Hab.
    cbn. cbn in IH. lia.
Qed.

Lemma compare_count_le_unique (A B : list Entity) :
  NoDup (map key B) ->
  (List.length (compare_entities A B) <= List.length A)%nat.
Proof.
  intros H. induction A as [|a A IH]; [cbn; lia|].
  rewrite compare_cons_l, length_app. cbn [List.length].
  pose proof (compare_one_unique a B H). lia.
Qed.

Lemma compare_by_entity A B :
  compare_entities A B = flat_map (fun a => compare_entities [a] B) A.
Proof.
  induction A as [|a A IH]; [reflexivity|].
  rewrite compare_cons_l, IH. reflexivity.
Qed.

(** X19: The lines printed are, for each entity of the first collection in
    turn, the lines of that entity alone; and when no two entities of the
    second collection share identifier and name, each entity of the first
    collection is reported at most once, so that there are no more lines
    than entities in the first collection. *)
Theorem compare_unique_keys_one_line_each (A B : list Entity) :
  NoDup (map key B) ->
  compare_entities A B = flat_map (fun a => compare_entities [a] B) A
  /\ (forall a, (List.length (compare_entities [a] B) <= 1)%nat)
  /\ (List.length (compare_entities A B) <= List.length A)%nat.
Proof.
  intros H. repeat apply conj.
  - apply compare_by_entity.
  - intros a. now apply compare_one_unique.
  - now apply compare_count_le_unique.
Qed.

Lemma compare_unique_keys_one_line_each_witness :
  compare_entities
    [Vehicle (VStr "1") (VStr "Car A") (VStr "Model X");
     Vehicle (VStr "1") (VStr "Car A") (VStr "Model X")]
    [Vehicle (VStr "1") (VStr "Car A") (VStr "Model X");
     Pedestrian (VStr "2") (VStr "John Doe") (VStr "30")]
  = flat_map
      (fun a => compare_entities [a]
         [Vehicle (VStr "1") (VStr "Car A") (VStr "Model X");
          Pedestrian (VStr "2") (VStr "John Doe") (VStr "30")])
      [Vehicle (VStr "1") (VStr "Car A") (VStr "Model X");
       Vehicle (VStr "1") (VStr "Car A") (VStr "Model X")]
  /\ (forall a,
        (List.length (compare_entities [a]
           [Vehicle (VStr "1") (VStr "Car A") (VStr "Model X");
            Pedestrian (VStr "2") (VStr "John Doe") (VStr "30")]) <= 1)%nat)
  /\ (List.length (compare_entities
        [Vehicle (VStr "1") (VStr "Car A") (VStr "Model X");
         Vehicle (VStr "1") (VStr "Car A") (VStr "Model X")]
        [Vehicle (VStr "1") (VStr "Car A") (VStr "Model X");
         Pedestrian (VStr "2") (VStr "John Doe") (VStr "30")])
      <= 2)%nat.
Proof.
  apply (compare_unique_keys_one_line_each
           [Vehicle (VStr "1") (VStr "Car A") (VStr "Model X");
            Vehicle (VStr "1") (VStr "Car A") (VStr "Model X")]
           [Vehicle (VStr "1") (VStr "Car A") (VStr "Model X");
            Pedestrian (VStr "2") (VStr "John Doe") (VStr "30")]).
  cbn. repeat constructor; cbn; intuition discriminate.
Defined.

Lemma compare_one_some_match a B b :
  In b B -> same_id_and_name a b = true ->
  In (match_line a) (compare_entities [a] B).
Proof.
  intros Hin Hab. rewrite compare_entities_pairs.
  apply in_map_iff. exists (a, b). split; [reflexivity|].
  apply filter_In. split; [|exact Hab].
  apply in_prod; [now left | exact Hin].
Qed.

Lemma compare_in a A b B :
  In a A -> In b B -> same_id_and_name a b = true ->
  In (match_line a) (compare_entities A B).
Proof.
  intros Ha Hb Hab. rewrite compare_entities_pairs.
  apply in_map_iff. exists (a, b). split; [reflexivity|].
  apply filter_In. split; [|exact Hab]. now apply in_prod.
Qed.

Lemma compare_at_least_one_each A B :
  (forall a, In a A -> exists b, In b B /\ same_id_and_name a b = true) ->
  (List.length A <= List.length (compare_entities A B))%nat.
Proof.
  induction A as [|a A IH]; intros H; [cbn; lia|].
  rewrite compare_cons_l, length_app. cbn [List.length].
  destruct (H a (or_introl eq_refl)) as (b & Hb & Hab).
  pose proof (compare_one_some_match a B b Hb Hab) as Hin.
  assert (IH' : (List.length A <= List.length (compare_entities A B))%nat).
  { apply IH. intros a' Ha'. apply H. now right. }
  destruct (compare_entities [a] B); [destruct Hin | cbn; lia].
Qed.

(** ** The run of [principes_1_2.py], for any collection *)

Lemma for_each_total {A B : Type} (body : A -> result B) l :
  (forall a, In a l -> exists b, body a = Ok b) ->
  exists bs, for_each body l = Ok bs.
Proof.
  induction l as [|a l IH]; intros H; [now exists []|].
  destruct (H a (or_introl eq_refl)) as [b Hb].
  destruct IH as [bs Hbs]; [intros a' Ha'; apply H; now right|].
  exists (b :: bs). cbn [for_each]. now rewrite Hb, Hbs.
Qed.

Lemma Forall2_in_l {A B : Type} (R : A -> B -> Prop) l l' a :
  Forall2 R l l' -> In a l -> exists b, In b l' /\ R a b.
Proof.
  induction 1 as [|x y l l' Hxy _ IH]; [intros []|].
  intros [<-|Ha].
  - exists y. split; [now left | assumption].
  - destruct (IH Ha) as (b & Hb & Hab). exists b. split; [now right | auto].
Qed.

Lemma csv_read_back_id e :
  entity_id (csv_read_back e)
  = VStr (universal_newlines (Csv.field (entity_id e))).
Proof. unfold csv_read_back. now destruct (is_numeral _). Qed.

Lemma csv_read_back_name e :
  name (csv_read_back e) = VStr (universal_newlines (Csv.field (name e))).
Proof. unfold csv_read_back. now destruct (is_numeral _). Qed.

(** Identifier and name of an entity of the script, as text. *)
Lemma script_ready_id_name e :
  script_ready e = true ->
  exists n,
    name e = VStr n
    /\ element_text_kept n = true
    /\ plain_text n = true
    /\ plain_text (Py.str (entity_id e)) = true
    /\ Csv.field (entity_id e) = Py.str (entity_id e).
Proof.
  assert (Hkept : forall c s, plain_text (String c s) = true ->
            element_text_kept (String c s) = true).
  { intros c s. unfold plain_text, element_text_kept.
    apply all_chars_weaken. now intros a ->. }
  destruct e as [[|zi|si] [| |[|c n]] [| |m]
                | [|zi|si] [| |[|c n]] [|a|] | i n t];
    intros H; cbn [script_ready] in H;
    rewrite ?andb_false_r in H; try discriminate H;
    exists (String c n); cbn [entity_id name Csv.field Py.str];
    repeat match type of H with
           | (_ && _) = true => apply andb_true_iff in H as [H ?]
           end;
    repeat split; auto using str_of_int_plain.
Qed.

Lemma script_ready_row e :
  script_ready e = true ->
  decode_row (map universal_newlines (Csv.writerow (to_csv_row e)))
  = Ok (csv_read_back e).
Proof.
  intros H. rewrite decode_written_row.
  assert (Hok : row_ok (map universal_newlines
                          (Csv.writerow (to_csv_row e))) = true);
    [|now rewrite Hok].
  rewrite encoded_row. cbn [map row_ok].
  destruct e as [i n [| |m] | i n [|a|] | i n t]; try discriminate;
    cbn [own_field Csv.field Py.str].
  - cbn [script_ready] in H.
    apply andb_true_iff in H as [[_ Hm]%andb_true_iff Hd].
    now rewrite universal_newlines_no_cr by now apply plain_text_no_cr.
  - rewrite universal_newlines_no_cr
      by apply plain_text_no_cr, str_of_int_plain.
    destruct (Z.leb_spec 0 a) as [Hle|Hlt].
    + destruct (str_of_int_numeral a Hle) as [Hn _].
      rewrite Hn. apply orb_true_r.
    + now rewrite (str_of_int_negative a Hlt).
Qed.

Lemma script_ready_xml e :
  script_ready e = true ->
  xml_writable e = true
  /\ xml_well_formed e = true
  /\ exists x, xml_read_back e = Ok x
               /\ entity_id x = VStr (Py.str (entity_id e))
               /\ name x = name e.
Proof.
  intros H. destruct (script_ready_id_name e H)
    as (n & Hname & Hkept & Hplain & Hid & _).
  destruct e as [i n0 [| |m] | i n0 [|a|] | i n0 t]; try discriminate;
    cbn [name entity_id] in *; subst n0;
    unfold xml_writable, xml_well_formed;
    cbn [entity_id name XmlFile.chars_allowed XmlFile.is_str];
    rewrite ?orb_true_r, (plain_text_allowed _ Hid),
      (plain_text_allowed _ Hplain); cbn [andb].
  - cbn [script_ready] in H.
    apply andb_true_iff in H as [[_ Hm]%andb_true_iff _].
    rewrite (plain_text_allowed _ Hm). repeat split.
    eexists. cbn [xml_read_back]. split; [reflexivity|].
    cbn [entity_id name].
    now rewrite attribute_text_plain, leaf_text_kept.
  - cbn [Py.str]. rewrite (plain_text_allowed _ (str_of_int_plain a)).
    repeat split. eexists. cbn [xml_read_back]. split; [reflexivity|].
    cbn [entity_id name].
    now rewrite attribute_text_plain, leaf_text_kept.
Qed.

(** What the two readers return for an entity of the script agrees on
    identifier and name, and prints as the entity itself would. *)
Lemma script_ready_matches e x :
  script_ready e = true -> xml_read_back e = Ok x ->
  same_id_and_name (csv_read_back e) x = true
  /\ match_line (csv_read_back e) = match_line e.
Proof.
  intros H Hx.
  destruct (script_ready_id_name e H)
    as (n & Hname & _ & Hplain & Hid & Hfield).
  destruct (script_ready_xml e H) as (_ & _ & x' & Hx' & Hxi & Hxn).
  assert (x' = x) by congruence. subst x'.
  unfold same_id_and_name, match_line.
  rewrite csv_read_back_id, csv_read_back_name, Hxi, Hxn, Hname, Hfield.
  cbn [Csv.field Py.str Py.eqb].
  rewrite !universal_newlines_no_cr by now apply plain_text_no_cr.
  now rewrite !String.eqb_refl.
Qed.

(** X20: The script saves a collection to both files, reads both back and
    compares.  For any collection of vehicles whose model is text without
    control characters that the CSV reader can decode and of pedestrians
    whose age is an [int], with an identifier that is an [int] or text
    without control characters and a name that is text, not empty and
    without control characters, the script runs without error, both reads
    return one entity per entity saved, every entity saved is reported as
    a match under its own name and identifier, and the report has exactly
    one line per entity when no two of the entities read from XML share
    identifier and name. *)
Theorem script_reports_every_entity (entities : list Entity) :
  forallb script_ready entities = true ->
  exists csv_entities xml_entities,
    Pipeline.csv_saved_then_read entities = Ok csv_entities
    /\ Pipeline.xml_created_then_parsed entities = Ok xml_entities
    /\ Pipeline.script entities
       = Ok (compare_entities csv_entities xml_entities)
    /\ List.length csv_entities = List.length entities
    /\ List.length xml_entities = List.length entities
    /\ (forall e, In e entities ->
          In (match_line e) (compare_entities csv_entities xml_entities))
    /\ (NoDup (map key xml_entities) ->
          List.length (compare_entities csv_entities xml_entities)
          = List.length entities).
Proof.
  intros H. rewrite forallb_forall in H.
  assert (Hcsv : Pipeline.csv_saved_then_read entities
                 = Ok (map csv_read_back entities)).
  { unfold Pipeline.csv_saved_then_read, CsvFile.read_back,
      save_entities_to_csv.
    cbn [map read_entities_from_csv]. rewrite !for_each_map.
    apply for_each_ok. intros e He. now apply script_ready_row, H. }
  assert (Hw : forallb xml_writable entities = true).
  { apply forallb_forall. intros e He.
    now destruct (script_ready_xml e (H e He)). }
  assert (Hf : forallb xml_well_formed entities = true).
  { apply forallb_forall. intros e He.
    now destruct (script_ready_xml e (H e He)) as (_ & ? & _). }
  destruct (for_each_total xml_read_back entities) as [xml Hxml].
  { intros e He.
    destruct (script_ready_xml e (H e He)) as (_ & _ & x & Hx & _).
    now exists x. }
  assert (Hparsed : Pipeline.xml_created_then_parsed entities = Ok xml).
  { now rewrite xml_pipeline, Hw, Hf. }
  exists (map csv_read_back entities), xml.
  pose proof (for_each_inv _ _ _ Hxml) as HF.
  assert (Hmatch : forall c, In c (map csv_read_back entities) ->
            exists b, In b xml /\ same_id_and_name c b = true).
  { intros c (e & <- & He)%in_map_iff.
    destruct (Forall2_in_l _ _ _ e HF He) as (x & Hx & Hex).
    exists x. split; [assumption|].
    now destruct (script_ready_matches e x (H e He) Hex). }
  repeat apply conj.
  - exact Hcsv.
  - exact Hparsed.
  - unfold Pipeline.script.
    unfold Pipeline.csv_saved_then_read in Hcsv.
    unfold Pipeline.xml_created_then_parsed in Hparsed.
    destruct (XmlFile.pretty_file (create_sample_xml entities)) as [root|];
      [|discriminate].
    cbn [bind] in *. now rewrite Hcsv, Hparsed.
  - apply length_map.
  - symmetry. exact (Forall2_length_eq _ _ _ HF).
  - intros e He.
    destruct (Forall2_in_l _ _ _ e HF He) as (x & Hx & Hex).
    destruct (script_ready_matches e x (H e He) Hex) as [Hsame <-].
    apply (compare_in _ _ x); auto. now apply in_map.
  - intros Hnd. apply Nat.le_antisymm.
    + rewrite <- (length_map csv_read_back entities).
      now apply compare_count_le_unique.
    + rewrite <- (length_map csv_read_back entities) at 1.
      now apply compare_at_least_one_each.
Qed.

Lemma script_reports_every_entity_witness :
  exists csv_entities xml_entities,
    Pipeline.csv_saved_then_read
      [Vehicle (VInt 1) (VStr "Car A") (VStr "Model X");
       Pedestrian (VInt 2) (VStr "John Doe") (VInt 30)] = Ok csv_entities
    /\ Pipeline.xml_created_then_parsed
         [Vehicle (VInt 1) (VStr "Car A") (VStr "Model X");
          Pedestrian (VInt 2) (VStr "John Doe") (VInt 30)] = Ok xml_entities
    /\ Pipeline.script
         [Vehicle (VInt 1) (VStr "Car A") (VStr "Model X");
          Pedestrian (VInt 2) (VStr "John Doe") (VInt 30)]
       = Ok (compare_entities csv_entities xml_entities)
    /\ List.length csv_entities = 2%nat
    /\ List.length xml_entities = 2%nat
    /\ (forall e,
          In e [Vehicle (VInt 1) (VStr "Car A") (VStr "Model X");
                Pedestrian (VInt 2) (VStr "John Doe") (VInt 30)] ->
          In (match_line e) (compare_entities csv_entities xml_entities))
    /\ (NoDup (map key xml_entities) ->
          List.length (compare_entities csv_entities xml_entities) = 2%nat).
Proof.
  apply (script_reports_every_entity
           [Vehicle (VInt 1) (VStr "Car A") (VStr "Model X");
            Pedestrian (VInt 2) (VStr "John Doe") (VInt 30)]).
  reflexivity.
Defined.

(** ** The handlers of [principles_345.py] and [five_principles.py] *)

(** X21: For an entity that the CSV file keeps, the records that
    [CSVHandler.save] of [principles_345.py] hands to the writer are those
    of [save_entities_to_csv] for the entity alone, and
    [read_entities_from_csv] reads the entity back from the file, as it
    does from the file of [five_principles.py], which differs in its
    header only. *)
Theorem csv_handler_file_is_read_back (e : Entity) :
  csv_faithful e = true ->
  csv_kept e = true ->
  Principles345.CSVHandler_save e = save_entities_to_csv [e]
  /\ read_entities_from_csv
       (CsvFile.read_back (Principles345.CSVHandler_save e)) = Ok [e]
  /\ read_entities_from_csv
       (CsvFile.read_back (FivePrinciples.CSVHandler_save e)) = Ok [e].
Proof.
  intros Hf Hk.
  assert (Hrow : decode_row (map universal_newlines
                               (Csv.writerow (to_csv_row e))) = Ok e).
  { rewrite written_row_kept by assumption.
    now apply decode_row_of_faithful. }
  repeat split;
    unfold CsvFile.read_back;
    cbn [Principles345.CSVHandler_save FivePrinciples.CSVHandler_save
         map read_entities_from_csv for_each];
    now rewrite Hrow.
Qed.

Lemma csv_handler_file_is_read_back_witness :
  Principles345.CSVHandler_save
    (Pedestrian (VStr "2") (VStr "John Doe") (VInt 30))
  = save_entities_to_csv [Pedestrian (VStr "2") (VStr "John Doe") (VInt 30)]
  /\ read_entities_from_csv (CsvFile.read_back (Principles345.CSVHandler_save
       (Pedestrian (VStr "2") (VStr "John Doe") (VInt 30))))
     = Ok [Pedestrian (VStr "2") (VStr "John Doe") (VInt 30)]
  /\ read_entities_from_csv (CsvFile.read_back (FivePrinciples.CSVHandler_save
       (Pedestrian (VStr "2") (VStr "John Doe") (VInt 30))))
     = Ok [Pedestrian (VStr "2") (VStr "John Doe") (VInt 30)].
Proof.
  apply (csv_handler_file_is_read_back
           (Pedestrian (VStr "2") (VStr "John Doe") (VInt 30)));
    reflexivity.
Defined.

(** X22: The file that [XMLHandler.save] of [principles_345.py] writes for
    a Vehicle or a Pedestrian whose fields are all text that the XML file
    keeps is parsed by [parse_entities_from_xml] into that entity alone. *)
Theorem xml_handler_file_is_read_back (e : Entity) :
  xml_kept e = true ->
  (root <- XmlFile.plain_file (Principles345.XMLHandler_save e) ;;
   parse_entities_from_xml root) = Ok [e].
Proof.
  destruct e as [[| |i] [| |n] [| |m] | [| |i] [| |n] [| |a] | i n t];
    try discriminate; cbn [xml_kept];
    intros [[Hi Hn]%andb_true_iff Hm]%andb_true_iff;
    unfold XmlFile.plain_file;
    cbn [Principles345.XMLHandler_save to_xml_element Entity_to_xml_element
         entity_id name Py.str Element_ append set_text app
         XmlFile.writable XmlFile.well_formed XmlFile.is_str
         XmlFile.chars_allowed forallb snd];
    rewrite ?orb_true_r, (plain_text_allowed _ Hi),
      (element_text_kept_allowed _ Hn), (element_text_kept_allowed _ Hm);
    cbn [andb negb bind XmlFile.plain_parsed map];
    rewrite (leaf_text_kept _ Hn), (leaf_text_kept _ Hm);
    reflexivity.
Qed.

Lemma xml_handler_file_is_read_back_witness :
  (root <- XmlFile.plain_file (Principles345.XMLHandler_save
             (Vehicle (VStr "1") (VStr "Car A") (VStr "Model X"))) ;;
   parse_entities_from_xml root)
  = Ok [Vehicle (VStr "1") (VStr "Car A") (VStr "Model X")].
Proof.
  apply (xml_handler_file_is_read_back
           (Vehicle (VStr "1") (VStr "Car A") (VStr "Model X"))).
  reflexivity.
Defined.

(** ** Round trips of whole files *)

(** X2: A collection of vehicles whose fields are text without carriage
    return and whose model [isdigit()] refuses, and of pedestrians with
    identifier and name that are text without carriage return and a
    non-negative [int] age, is read back from the CSV file written for it,
    entity by entity and in order. *)
Theorem csv_collection_round_trip (entities : list Entity) :
  forallb csv_faithful entities = true ->
  forallb csv_kept entities = true ->
  Pipeline.csv_saved_then_read entities = Ok entities.
Proof.
  intros Hf Hk. rewrite forallb_forall in Hf, Hk.
  unfold Pipeline.csv_saved_then_read, CsvFile.read_back,
    save_entities_to_csv.
  cbn [map read_entities_from_csv]. rewrite !for_each_map.
  rewrite (for_each_ok _ (fun e => e)); [now rewrite map_id|].
  intros e He. rewrite written_row_kept by auto.
  apply decode_row_of_faithful. auto.
Qed.

Lemma csv_collection_round_trip_witness :
  Pipeline.csv_saved_then_read
    [Vehicle (VStr "1") (VStr "Car A") (VStr "Model X");
     Pedestrian (VStr "2") (VStr "John Doe") (VInt 30)]
  = Ok [Vehicle (VStr "1") (VStr "Car A") (VStr "Model X");
        Pedestrian (VStr "2") (VStr "John Doe") (VInt 30)].
Proof.
  apply (csv_collection_round_trip
           [Vehicle (VStr "1") (VStr "Car A") (VStr "Model X");
            Pedestrian (VStr "2") (VStr "John Doe") (VInt 30)]);
    reflexivity.
Defined.

(** X1: A collection of vehicles and pedestrians whose fields are all text
    that the XML file keeps (identifiers without control character; names,
    models and ages not empty and without control character but tab and
    line feed) is read back from the XML file written for it, entity by
    entity and in order. *)
Theorem xml_collection_round_trip (entities : list Entity) :
  forallb xml_kept entities = true ->
  Pipeline.xml_created_then_parsed entities = Ok entities.
Proof. exact (xml_pipeline_kept entities). Qed.

Lemma xml_collection_round_trip_witness :
  Pipeline.xml_created_then_parsed
    [Vehicle (VStr "1") (VStr "Car A") (VStr "Model X");
     Pedestrian (VStr "2") (VStr "John Doe") (VStr "30")]
  = Ok [Vehicle (VStr "1") (VStr "Car A") (VStr "Model X");
        Pedestrian (VStr "2") (VStr "John Doe") (VStr "30")].
Proof.
  apply (xml_collection_round_trip
           [Vehicle (VStr "1") (VStr "Car A") (VStr "Model X");
            Pedestrian (VStr "2") (VStr "John Doe") (VStr "30")]).
  reflexivity.
Defined.

(** X3: An entity that is read back unchanged from the CSV row written for it
    is a vehicle with text fields whose model [isdigit()] refuses, or a
    pedestrian with text identifier and name and a non-negative [int] age:
    no other entity survives the CSV file. *)
Theorem csv_round_trip_only_if_faithful (e : Entity) :
  decode_row (Csv.writerow (to_csv_row e)) = Ok e -> csv_faithful e = true.
Proof. exact (csv_round_trip_only_faithful e). Qed.

(** X10: No record, whatever it holds, is decoded as a LightStateAction. *)
Theorem csv_never_reads_light_state_action (row : list string)
  (i n t : value) :
  decode_row row <> Ok (LightStateAction i n t).
Proof. exact (decode_row_never_light_state_action row i n t). Qed.

Lemma csv_round_trip_only_if_faithful_witness :
  csv_faithful (Vehicle (VStr "3") (VStr "Car B") (VStr "Model Y")) = true.
Proof.
  apply (csv_round_trip_only_if_faithful
           (Vehicle (VStr "3") (VStr "Car B") (VStr "Model Y"))).
  reflexivity.
Defined.
